(** * Bitbucket Server adapter: a shallow embedding of [server-adapter.ts]

    The adapter rewrites requests written for the Bitbucket Cloud REST
    dialect into the Bitbucket Server dialect and reshapes the responses
    back.  Every method of [BitbucketServerAdapter] is embedded below as a
    function of the same name over a small model of the JavaScript values it
    handles:

    - strings are [string]s, one [ascii] per character (so the model covers
      the 8-bit characters), with [String.prototype.includes], [replace] and
      [match] written out;
    - the regular expressions of the source are values of [regex], run by a
      backtracking matcher;
    - JSON payloads are [value]s; objects are finite maps from property
      names to values;
    - a thrown [TypeError] is the [Throw] result of the error monad
      [result].

    Numbers are the integers ([Z]), printed in decimal: the identifiers,
    counts and timestamps of the backend are integral.  The log record
    written by [transformRequest] is not part of the model.

    The file has two parts: the embedding of the source together with the
    vocabulary of the statements, then the properties. *)

From Stdlib Require Import ZArith Ascii String DecimalString.
From stdpp Require Import base option list strings gmap fin_maps.

Set Warnings "-register-all".
Set Default Proof Using "Type".

(** ** Strings *)

Module Str.

(** [strip_prefix p s] is [Some rest] when [s = p +:+ rest]. *)
Fixpoint strip_prefix (p s : string) : option string :=
  match p, s with
  | EmptyString, _ => Some s
  | String a p', String b s' =>
      if Ascii.eqb a b then strip_prefix p' s' else None
  | String _ _, EmptyString => None
  end.

(** Leftmost occurrence of [p] in [s]: the text before it and after it. *)
Fixpoint search (p s : string) : option (string * string) :=
  match strip_prefix p s with
  | Some rest => Some (EmptyString, rest)
  | None =>
      match s with
      | EmptyString => None
      | String c s' =>
          match search p s' with
          | Some (b, a) => Some (String c b, a)
          | None => None
          end
      end
  end.

(** [s.includes(p)] *)
Definition includes (s p : string) : bool :=
  match search p s with Some _ => true | None => false end.

Definition is_digit (c : ascii) : option nat :=
  let n := nat_of_ascii c in
  if (48 <=? n)%nat && (n <=? 57)%nat then Some (n - 48) else None.

(** The pieces of a match that a replacement pattern may refer to. *)
Record captures := Captures {
  c_before : string;
  c_matched : string;
  c_groups : list string;
  c_after : string
}.

Definition group (m : captures) (n : nat) : option string :=
  match n with
  | O => None
  | S k => c_groups m !! k
  end.

(** GetSubstitution: the expansion of [$$], [$&], [$`], [$'], [$n] and
    [$nn] in a replacement string. *)
Fixpoint expand (r : string) (m : captures) : string :=
  match r with
  | EmptyString => EmptyString
  | String c r' =>
      if Ascii.eqb c "$" then
        match r' with
        | EmptyString => String c EmptyString
        | String d r'' =>
            if Ascii.eqb d "$" then String "$" (expand r'' m)
            else if Ascii.eqb d "&" then c_matched m +:+ expand r'' m
            else if Ascii.eqb d "`" then c_before m +:+ expand r'' m
            else if Ascii.eqb d "'" then c_after m +:+ expand r'' m
            else
              match is_digit d with
              | None => String c (expand r' m)
              | Some n1 =>
                  let one :=
                    match group m n1 with
                    | Some g => g +:+ expand r'' m
                    | None => String c (expand r' m)
                    end in
                  match r'' with
                  | EmptyString => one
                  | String e r''' =>
                      match is_digit e with
                      | None => one
                      | Some n2 =>
                          match group m (10 * n1 + n2) with
                          | Some g => g +:+ expand r''' m
                          | None => one
                          end
                      end
                  end
              end
        end
      else String c (expand r' m)
  end.

(** [s.replace(p, r)] with a string pattern: the first occurrence only. *)
Definition replace (s p r : string) : string :=
  match search p s with
  | Some (b, a) => b +:+ expand r (Captures b p [] a) +:+ a
  | None => s
  end.

Definition is_upper (c : ascii) : bool :=
  let n := nat_of_ascii c in (65 <=? n)%nat && (n <=? 90)%nat.

Definition lower_char (c : ascii) : ascii :=
  if is_upper c then ascii_of_nat (nat_of_ascii c + 32) else c.

(** [s.toLowerCase()] on the ASCII letters. *)
Fixpoint toLowerCase (s : string) : string :=
  match s with
  | EmptyString => EmptyString
  | String c s' => String (lower_char c) (toLowerCase s')
  end.

End Str.

(** ** Regular expressions

    Every pattern of the source is a sequence of literal characters and of
    the class repetition [[^\/]+], plain or captured, between optional
    anchors.  No pattern carries a flag, so [$] is the end of the input and
    [replace] rewrites the first match only. *)

Module RegExp.
Import Str.

Inductive piece : Type :=
| Lit (s : string)          (* literal characters *)
| Seg (captured : bool).    (* [^\/]+ , in parentheses when captured *)

Record regex := Regex {
  re_bol : bool;            (* leading ^ *)
  re_body : list piece;
  re_eol : bool             (* trailing $ *)
}.

Definition is_slash (c : ascii) : bool := Ascii.eqb c "/".

(** Greedy [[^\/]+]: take as many characters as possible, at least one,
    and give them back one at a time while the continuation fails. *)
Fixpoint run_seg {A} (k : string -> string -> option A) (s : string)
  : option A :=
  match s with
  | EmptyString => None
  | String c s' =>
      if is_slash c then None
      else
        match run_seg (fun g r => k (String c g) r) s' with
        | Some x => Some x
        | None => k (String c EmptyString) s'
        end
  end.

(** Match the pieces at the start of [s]: the matched text, the captured
    groups and the rest of the input. *)
Fixpoint match_pieces (ps : list piece) (eol : bool) (s : string)
  : option (string * list string * string) :=
  match ps with
  | [] =>
      if eol then
        match s with
        | EmptyString => Some (EmptyString, [], EmptyString)
        | String _ _ => None
        end
      else Some (EmptyString, [], s)
  | Lit l :: ps' =>
      match strip_prefix l s with
      | Some rest =>
          match match_pieces ps' eol rest with
          | Some (m, gs, r) => Some (l +:+ m, gs, r)
          | None => None
          end
      | None => None
      end
  | Seg cap :: ps' =>
      run_seg
        (fun g rest =>
           match match_pieces ps' eol rest with
           | Some (m, gs, r) =>
               Some (g +:+ m, if cap then g :: gs else gs, r)
           | None => None
           end)
        s
  end.

(** Try every start position from the left. *)
Fixpoint scan (ps : list piece) (eol : bool) (s : string)
  : option captures :=
  match match_pieces ps eol s with
  | Some (m, gs, r) => Some (Captures EmptyString m gs r)
  | None =>
      match s with
      | EmptyString => None
      | String c s' =>
          match scan ps eol s' with
          | Some (Captures b m gs r) => Some (Captures (String c b) m gs r)
          | None => None
          end
      end
  end.

(** [re.exec(s)] *)
Definition exec (re : regex) (s : string) : option captures :=
  if re_bol re then
    match match_pieces (re_body re) (re_eol re) s with
    | Some (m, gs, r) => Some (Captures EmptyString m gs r)
    | None => None
    end
  else scan (re_body re) (re_eol re) s.

(** [s.match(re)] used as a condition *)
Definition test (re : regex) (s : string) : bool :=
  match exec re s with Some _ => true | None => false end.

(** [s.replace(re, r)] *)
Definition replace (s : string) (re : regex) (r : string) : string :=
  match exec re s with
  | Some m => c_before m +:+ expand r m +:+ c_after m
  | None => s
  end.

End RegExp.

(** ** The URL rewriter *)

Import Str RegExp.

(** [/^\/repositories\/([^\/]+)$/] *)
Definition re_repo_list : regex :=
  Regex true [Lit "/repositories/"; Seg true] true.

(** [/^\/repositories\/([^\/]+)\/([^\/]+)$/] *)
Definition re_repo_single : regex :=
  Regex true [Lit "/repositories/"; Seg true; Lit "/"; Seg true] true.

(** [/^\/repositories\/([^\/]+)\/([^\/]+)/] *)
Definition re_repo_prefix : regex :=
  Regex true [Lit "/repositories/"; Seg true; Lit "/"; Seg true] false.

(** [/^\/workspaces\/([^\/]+)$/] *)
Definition re_workspace : regex :=
  Regex true [Lit "/workspaces/"; Seg true] true.

Definition server_repo : string := "/rest/api/1.0/projects/$1/repos/$2".

Definition transformUrl (url : string) : string :=
  if test re_repo_list url then
    RegExp.replace url re_repo_list "/rest/api/1.0/projects/$1/repos"
  else if test re_repo_single url then
    RegExp.replace url re_repo_single server_repo
  else if includes url "/diffstat" then
    let url := Str.replace url "/pullrequests/" "/pull-requests/" in
    Str.replace (RegExp.replace url re_repo_prefix server_repo)
      "/diffstat" "/changes"
  else if includes url "/diff" && includes url "/pullrequests/" then
    let url := Str.replace url "/pullrequests/" "/pull-requests/" in
    RegExp.replace url re_repo_prefix server_repo
  else if includes url "/pullrequests/" && includes url "/comments" then
    let url := Str.replace url "/pullrequests/" "/pull-requests/" in
    Str.replace (RegExp.replace url re_repo_prefix server_repo)
      "/comments" "/activities"
  else if includes url "/pullrequests/" && includes url "/activity" then
    let url := Str.replace url "/pullrequests/" "/pull-requests/" in
    Str.replace (RegExp.replace url re_repo_prefix server_repo)
      "/activity" "/activities"
  else if includes url "/pullrequests" then
    let url := Str.replace url "/pullrequests" "/pull-requests" in
    RegExp.replace url re_repo_prefix server_repo
  else if String.eqb url "/workspaces" then
    "/rest/api/1.0/projects"
  else if test re_workspace url then
    RegExp.replace url re_workspace "/rest/api/1.0/projects/$1"
  else if includes url "/branching-model" then
    Str.replace (Str.replace url "/workspaces/" "/rest/api/1.0/projects/")
      "/branching-model" "/restrictions"
  else url.

(** ** JavaScript values *)

Inductive exn : Type := TypeError.

(** A computation that may throw. *)
Inductive result (A : Type) : Type :=
| Ok (a : A)
| Throw (e : exn).
Arguments Ok {A} a.
Arguments Throw {A} e.

Global Instance result_ret : MRet result := @Ok.
Global Instance result_bind : MBind result := λ A B f r,
  match r with
  | Ok a => f a
  | Throw e => Throw e
  end.
Global Instance result_fmap : FMap result := λ A B f r,
  match r with
  | Ok a => Ok (f a)
  | Throw e => Throw e
  end.

(** JSON data, [undefined], and the builtin methods that a read of an
    inherited property returns ([VNative name]). *)
Inductive value : Type :=
| VUndef
| VNull
| VBool (b : bool)
| VNum (n : Z)
| VStr (s : string)
| VArr (l : list value)
| VObj (m : gmap string value)
| VNative (name : string).

Module Js.

Definition object (fields : list (string * value)) : value :=
  VObj (list_to_map fields).

Definition nullish (v : value) : bool :=
  match v with
  | VUndef | VNull => true
  | _ => false
  end.

(** ToBoolean *)
Definition truthy (v : value) : bool :=
  match v with
  | VUndef | VNull => false
  | VBool b => b
  | VNum n => negb (n =? 0)%Z
  | VStr s => negb (String.eqb s "")
  | VArr _ | VObj _ | VNative _ => true
  end.

(** [v.k] for the property names the adapter reads.  Of the inherited
    members only [toString] (every prototype) and [values]
    ([Array.prototype]) bear such a name; [.map], [.filter] and
    [.toLowerCase] are calls, modelled by [call_map], [call_filter] and
    [call_toLowerCase]. *)
Definition get (v : value) (k : string) : result value :=
  match v with
  | VUndef | VNull => Throw TypeError
  | VObj m =>
      Ok (match m !! k with
          | Some x => x
          | None => if String.eqb k "toString" then VNative "toString"
                    else VUndef
          end)
  | VArr l =>
      Ok (if String.eqb k "length" then VNum (Z.of_nat (length l))
          else if String.eqb k "toString" then VNative "toString"
          else if String.eqb k "values" then VNative "values"
          else VUndef)
  | VStr s =>
      Ok (if String.eqb k "length" then VNum (Z.of_nat (String.length s))
          else if String.eqb k "toString" then VNative "toString"
          else VUndef)
  | VNum _ | VBool _ =>
      Ok (if String.eqb k "toString" then VNative "toString" else VUndef)
  | VNative f =>
      Ok (if String.eqb k "name" then VStr f
          else if String.eqb k "length" then VNum 0
          else if String.eqb k "toString" then VNative "toString"
          else VUndef)
  end.

(** [v?.k] *)
Definition get_opt (v : value) (k : string) : value :=
  match get v k with
  | Ok x => x
  | Throw _ => VUndef
  end.

Definition string_of_nat (n : nat) : string :=
  NilZero.string_of_uint (Nat.to_uint n).

Definition string_of_Z (n : Z) : string :=
  NilZero.string_of_int (Z.to_int n).

Definition char_at (s : string) (i : nat) : value :=
  match String.get i s with
  | Some c => VStr (String c EmptyString)
  | None => VUndef
  end.

(** [v[i]] *)
Definition get_index (v : value) (i : nat) : result value :=
  match v with
  | VUndef | VNull => Throw TypeError
  | VArr l => Ok (default VUndef (l !! i))
  | VStr s => Ok (char_at s i)
  | VObj m => Ok (default VUndef (m !! string_of_nat i))
  | VBool _ | VNum _ | VNative _ => Ok VUndef
  end.

(** [v?.[i]] *)
Definition get_index_opt (v : value) (i : nat) : value :=
  match get_index v i with
  | Ok x => x
  | Throw _ => VUndef
  end.

(** [v.k = x] in strict mode.  The adapter assigns to objects only: on an
    array every path reads [.map] or [.filter] of [Array.prototype.values]
    first, which throws. *)
Definition set (v : value) (k : string) (x : value) : result value :=
  match v with
  | VObj m => Ok (VObj (<[k := x]> m))
  | _ => Throw TypeError
  end.

(** ToString.  An own [toString] or [valueOf] of a JSON object is data,
    not a method, so ToPrimitive finds nothing to call and throws. *)
Fixpoint to_string (v : value) : result string :=
  match v with
  | VUndef => Ok "undefined"
  | VNull => Ok "null"
  | VBool true => Ok "true"
  | VBool false => Ok "false"
  | VNum n => Ok (string_of_Z n)
  | VStr s => Ok s
  | VArr l =>
      let element (x : value) : result string :=
        match x with
        | VUndef | VNull => Ok EmptyString
        | _ => to_string x
        end in
      (fix join (l : list value) : result string :=
         match l with
         | [] => Ok EmptyString
         | [x] => element x
         | x :: l' =>
             s ← element x; r ← join l'; Ok (s +:+ "," +:+ r)
         end) l
  | VObj m =>
      match m !! "toString" with
      | None => Ok "[object Object]"
      | Some _ => Throw TypeError
      end
  | VNative f => Ok ("function " +:+ f +:+ "() { [native code] }")
  end.

(** [a || b], with [b] evaluated on demand *)
Definition or_else (a : value) (b : result value) : result value :=
  if truthy a then Ok a else b.

(** [a || b] for a [b] that cannot throw *)
Definition or_val (a b : value) : value :=
  if truthy a then a else b.

(** [v.map(f)] *)
Definition call_map (v : value) (f : value → result value)
  : result value :=
  match v with
  | VArr l => VArr <$> mapM f l
  | _ => Throw TypeError
  end.

(** [v?.map(f)] *)
Definition call_map_opt (v : value) (f : value → result value)
  : result value :=
  if nullish v then Ok VUndef else call_map v f.

(** [v.filter(p)] *)
Definition call_filter (v : value) (p : value → result bool)
  : result (list value) :=
  match v with
  | VArr l =>
      (fix go (l : list value) : result (list value) :=
         match l with
         | [] => Ok []
         | x :: l' =>
             b ← p x; r ← go l'; Ok (if b : bool then x :: r else r)
         end) l
  | _ => Throw TypeError
  end.

(** [v.toLowerCase()] *)
Definition call_toLowerCase (v : value) : result value :=
  match v with
  | VStr s => Ok (VStr (Str.toLowerCase s))
  | _ => Throw TypeError
  end.

(** [`{${v}}`] *)
Definition braced (v : value) : result value :=
  s ← to_string v; Ok (VStr ("{" +:+ s +:+ "}")).

(** [{...v}]: the own enumerable properties *)
Definition spread (v : value) : gmap string value :=
  match v with
  | VObj m => m
  | VArr l => list_to_map (imap (λ i x, (string_of_nat i, x)) l)
  | VStr s =>
      list_to_map
        (imap (λ i c, (string_of_nat i, VStr (String c EmptyString)))
           (list_ascii_of_string s))
  | _ => ∅
  end.

End Js.

(** ** The payload rewriter *)

Import Js.

(** [/\/repos\/([^\/]+)/] *)
Definition re_repos : regex := Regex false [Lit "/repos/"; Seg true] false.

(** [/\/projects\/([^\/]+)/] *)
Definition re_projects : regex :=
  Regex false [Lit "/projects/"; Seg true] false.

(** [/\/projects\/[^\/]+$/] *)
Definition re_project_end : regex :=
  Regex false [Lit "/projects/"; Seg false] true.

(** [v === s] for a string literal [s] *)
Definition is_str (v : value) (s : string) : bool :=
  match v with
  | VStr t => String.eqb t s
  | _ => false
  end.

(** [url.match(re)?.[1]] *)
Definition match_group1 (re : regex) (url : string) : value :=
  match exec re url with
  | Some m => default VUndef (VStr <$> group m 1)
  | None => VUndef
  end.

Definition transformParams (params : value) : gmap string value :=
  let transformed := spread params in
  let transformed :=
    match transformed !! "pagelen" with
    | Some pagelen => delete "pagelen" (<["limit" := pagelen]> transformed)
    | None => transformed
    end in
  match transformed !! "state" with
  | Some state =>
      if truthy state && is_str state "SUPERSEDED" then
        <["state" := VStr "DECLINED"]> transformed
      else transformed
  | None => transformed
  end.

(** The reference object of [fromRef] and [toRef]. *)
Definition ref (branch : string) (repoSlug projectKey : value) : value :=
  object
    [("id", VStr ("refs/heads/" +:+ branch));
     ("repository",
      object [("slug", repoSlug);
              ("project", object [("key", projectKey)])])].

Definition transformRequestBody (url : string) (data : value)
  : result value :=
  if includes url "/pull-requests" then
    flat ← get data "sourceBranch";
    sourceBranch ←
      or_else flat
        (source ← get data "source";
         Ok (get_opt (get_opt source "branch") "name"));
    flat ← get data "targetBranch";
    nested ←
      or_else flat
        (destination ← get data "destination";
         Ok (get_opt (get_opt destination "branch") "name"));
    let targetBranch := or_val nested (VStr "master") in
    if truthy sourceBranch then
      let repoSlug := match_group1 re_repos url in
      let projectKey := match_group1 re_projects url in
      title ← get data "title";
      description ← get data "description";
      from ← to_string sourceBranch;
      to ← to_string targetBranch;
      reviewers ← get data "reviewers";
      wrapped ←
        call_map_opt reviewers
          (λ username, Ok (object [("user", object [("name", username)])]));
      Ok (object
            [("title", title);
             ("description", or_val description (VStr ""));
             ("state", VStr "OPEN");
             ("open", VBool true);
             ("closed", VBool false);
             ("fromRef", ref from repoSlug projectKey);
             ("toRef", ref to repoSlug projectKey);
             ("reviewers", or_val wrapped (VArr []))])
    else Ok data
  else Ok data.

(** The request configuration of the HTTP client, as far as the adapter
    reads and writes it. *)
Record config := Config {
  cfg_url : option string;
  cfg_method : option string;
  cfg_params : value;
  cfg_data : value;
  cfg_originalPath : option string
}.

Definition transformRequest (c : config) : result config :=
  match cfg_url c with
  | None => Ok c
  | Some originalUrl =>
      if String.eqb originalUrl "" then Ok c
      else
        let url := transformUrl originalUrl in
        let params :=
          if truthy (cfg_params c) then VObj (transformParams (cfg_params c))
          else cfg_params c in
        data ←
          (if truthy (cfg_data c)
              && bool_decide (cfg_method c = Some "post"
                              ∨ cfg_method c = Some "put")
           then transformRequestBody url (cfg_data c)
           else Ok (cfg_data c));
        Ok (Config (Some url) (cfg_method c) params data (Some originalUrl))
  end.

(** ** The response normalizer *)

(** [v.k1.k2] *)
Definition get2 (v : value) (k1 k2 : string) : result value :=
  x ← get v k1; get x k2.

(** [v.k1.k2.k3] *)
Definition get3 (v : value) (k1 k2 k3 : string) : result value :=
  x ← get2 v k1 k2; get x k3.

(** [v.k1?.k2] *)
Definition opt2 (v : value) (k1 k2 : string) : result value :=
  x ← get v k1; Ok (get_opt x k2).

(** [v.k1?.k2?.k3] *)
Definition opt3 (v : value) (k1 k2 k3 : string) : result value :=
  x ← opt2 v k1 k2; Ok (get_opt x k3).

Section Normalizer.

(** [this.baseUrl] *)
Variable baseUrl : string.

(** [`${this.baseUrl}/projects/${key}`] *)
Definition project_href (key : value) : result value :=
  k ← to_string key; Ok (VStr (baseUrl +:+ "/projects/" +:+ k)).

(** [`${this.baseUrl}/projects/${key}/repos/${slug}`] *)
Definition repo_href (key slug : value) : result value :=
  k ← to_string key; s ← to_string slug;
  Ok (VStr (baseUrl +:+ "/projects/" +:+ k +:+ "/repos/" +:+ s)).

(** Project -> workspace; the list and the single mapping are the same
    object literal. *)
Definition workspace (project : value) : result value :=
  uuid ← get project "id" ≫= braced;
  name ← get project "name";
  slug ← get project "key" ≫= call_toLowerCase;
  self ← get project "key" ≫= project_href;
  html ← get project "key" ≫= project_href;
  Ok (object
        [("uuid", uuid);
         ("name", name);
         ("slug", slug);
         ("type", VStr "workspace");
         ("is_private", VBool true);
         ("links", object [("self", object [("href", self)]);
                           ("html", object [("href", html)])])]).

(** [`${a}/${b}`] *)
Definition slash_joined (a b : value) : result value :=
  x ← to_string a; y ← to_string b; Ok (VStr (x +:+ "/" +:+ y)).

Definition repository (repo : value) : result value :=
  uuid ← get repo "id" ≫= braced;
  name ← get repo "name";
  slug ← get repo "slug";
  full_name ←
    (key ← get2 repo "project" "key"; s ← get repo "slug";
     slash_joined key s);
  description ← get repo "description";
  public ← get repo "public";
  scmId ← get repo "scmId";
  ws_uuid ← get2 repo "project" "id" ≫= braced;
  ws_name ← get2 repo "project" "name";
  ws_slug ← get2 repo "project" "key" ≫= call_toLowerCase;
  pr_uuid ← get2 repo "project" "id" ≫= braced;
  pr_key ← get2 repo "project" "key";
  pr_name ← get2 repo "project" "name";
  self ←
    (key ← get2 repo "project" "key"; s ← get repo "slug"; repo_href key s);
  html ←
    (key ← get2 repo "project" "key"; s ← get repo "slug"; repo_href key s);
  clone ← opt2 repo "links" "clone";
  Ok (object
        [("uuid", uuid);
         ("name", name);
         ("slug", slug);
         ("full_name", full_name);
         ("description", or_val description (VStr ""));
         ("is_private", VBool (negb (truthy public)));
         ("type", VStr "repository");
         ("scm", or_val scmId (VStr "git"));
         ("workspace", object [("uuid", ws_uuid);
                               ("name", ws_name);
                               ("slug", ws_slug);
                               ("type", VStr "workspace")]);
         ("project", object [("uuid", pr_uuid);
                             ("key", pr_key);
                             ("name", pr_name);
                             ("type", VStr "project")]);
         ("links", object [("self", object [("href", self)]);
                           ("html", object [("href", html)]);
                           ("clone", or_val clone (VArr []))])]).

(** One entry of the [changes] list. *)
Definition change_record (change : value) : result value :=
  type ← get change "type";
  path ← get change "path";
  new ←
    (if truthy path then
       p ← get2 change "path" "toString"; Ok (object [("path", p)])
     else Ok VNull);
  srcPath ← get change "srcPath";
  old ←
    (if truthy srcPath then
       p ← get2 change "srcPath" "toString"; Ok (object [("path", p)])
     else Ok VNull);
  linesAdded ← get change "linesAdded";
  linesRemoved ← get change "linesRemoved";
  Ok (object
        [("status", or_val type (VStr "modified"));
         ("new", new);
         ("old", old);
         ("lines_added", or_val linesAdded (VNum 0));
         ("lines_removed", or_val linesRemoved (VNum 0))]).

(** [{ raw: text || '', markup: 'markdown', html: text || '' }] *)
Definition content (activity : value) : result value :=
  raw ← opt2 activity "comment" "text";
  html ← opt2 activity "comment" "text";
  Ok (object [("raw", or_val raw (VStr ""));
              ("markup", VStr "markdown");
              ("html", or_val html (VStr ""))]).

(** A [COMMENTED] activity as a comment. *)
Definition comment_entry (activity : value) : result value :=
  id ← (c ← opt2 activity "comment" "id";
        or_else c (get activity "id"));
  body ← content activity;
  uuid ←
    (u ← opt2 activity "user" "id";
     or_else u (opt3 activity "comment" "author" "id")) ≫= braced;
  display_name ←
    (u ← opt2 activity "user" "displayName";
     or_else u (opt3 activity "comment" "author" "displayName"));
  account_id ←
    (u ← opt2 activity "user" "name";
     or_else u (opt3 activity "comment" "author" "name"));
  created_on ←
    (d ← get activity "createdDate";
     or_else d (opt2 activity "comment" "createdDate"));
  updated_on ←
    (d ← get activity "updatedDate";
     or_else d (opt2 activity "comment" "updatedDate"));
  Ok (object
        [("id", id);
         ("content", body);
         ("user", object [("uuid", uuid);
                          ("display_name", display_name);
                          ("account_id", account_id)]);
         ("created_on", created_on);
         ("updated_on", updated_on);
         ("type", VStr "pullrequest_comment");
         ("links", object [("self", object [("href", VStr "")]);
                           ("html", object [("href", VStr "")])])]).

(** [{ uuid: `{${activity.user?.id}}`, display_name, account_id }] *)
Definition activity_user (activity : value) : result value :=
  uuid ← opt2 activity "user" "id" ≫= braced;
  display_name ← opt2 activity "user" "displayName";
  account_id ← opt2 activity "user" "name";
  Ok (object [("uuid", uuid);
              ("display_name", display_name);
              ("account_id", account_id)]).

(** Any activity as an entry of the activity log. *)
Definition activity_entry (activity : value) : result value :=
  date ← get activity "createdDate";
  author ← activity_user activity;
  let baseActivity : gmap string value :=
    {[ "update" := object [("date", date); ("author", author)] ]} in
  action ← get activity "action";
  if is_str action "COMMENTED" then
    id ← opt2 activity "comment" "id";
    created_on ← opt2 activity "comment" "createdDate";
    updated_on ← opt2 activity "comment" "updatedDate";
    body ← content activity;
    uuid ← opt3 activity "comment" "author" "id" ≫= braced;
    display_name ← opt3 activity "comment" "author" "displayName";
    account_id ← opt3 activity "comment" "author" "name";
    Ok (VObj
          (<["comment" :=
               object [("id", id);
                       ("created_on", created_on);
                       ("updated_on", updated_on);
                       ("content", body);
                       ("user", object [("uuid", uuid);
                                        ("display_name", display_name);
                                        ("account_id", account_id)])]]>
             baseActivity))
  else if is_str action "APPROVED" || is_str action "UNAPPROVED" then
    date ← get activity "createdDate";
    user ← activity_user activity;
    Ok (VObj
          (<["approval" := object [("date", date); ("user", user)]]>
             baseActivity))
  else Ok (VObj baseActivity).

Definition reviewer (r : value) : result value :=
  uuid ← get2 r "user" "id" ≫= braced;
  display_name ← get2 r "user" "displayName";
  account_id ← get2 r "user" "name";
  approved ← get r "approved";
  Ok (object [("uuid", uuid);
              ("display_name", display_name);
              ("account_id", account_id);
              ("approved", approved)]).

(** [{ branch: { name }, repository: { full_name } }] of [pr[side]] *)
Definition endpoint (pr : value) (side : string) : result value :=
  name ← get2 pr side "displayId";
  full_name ←
    (key ← (x ← get3 pr side "repository" "project"; get x "key");
     slug ← get3 pr side "repository" "slug";
     slash_joined key slug);
  Ok (object [("branch", object [("name", name)]);
              ("repository", object [("full_name", full_name)])]).

(** [pr.links?.self?.[0]?.href || ''] *)
Definition self_href (pr : value) : result value :=
  self ← opt2 pr "links" "self";
  Ok (or_val (get_opt (get_index_opt self 0) "href") (VStr "")).

Definition pull_request (pr : value) : result value :=
  id ← get pr "id";
  title ← get pr "title";
  description ← get pr "description";
  state ← get pr "state";
  created_on ← get pr "createdDate";
  updated_on ← get pr "updatedDate";
  source ← endpoint pr "fromRef";
  destination ← endpoint pr "toRef";
  user ← opt2 pr "author" "user";
  author ←
    (if truthy user then
       uuid ← get3 pr "author" "user" "id" ≫= braced;
       display_name ← get3 pr "author" "user" "displayName";
       account_id ← get3 pr "author" "user" "name";
       Ok (object [("uuid", uuid);
                   ("display_name", display_name);
                   ("account_id", account_id)])
     else Ok VNull);
  reviewers ← (rs ← get pr "reviewers"; call_map_opt rs reviewer);
  self ← self_href pr;
  html ← self_href pr;
  Ok (object
        [("id", id);
         ("title", title);
         ("description", or_val description (VStr ""));
         ("state", state);
         ("created_on", created_on);
         ("updated_on", updated_on);
         ("source", source);
         ("destination", destination);
         ("author", author);
         ("reviewers", or_val reviewers (VArr []));
         ("links", object [("self", object [("href", self)]);
                           ("html", object [("href", html)])])]).

(** [data.values = data.values.map(f)] *)
Definition map_values (f : value → result value) (data : value)
  : result value :=
  values ← get data "values";
  mapped ← call_map values f;
  set data "values" mapped.

(** The activities block: comments when there are any, else the log. *)
Definition activities_block (data : value) : result value :=
  values ← get data "values";
  let activities := or_val values (VArr []) in
  commented ←
    call_filter activities
      (λ activity, a ← get activity "action"; Ok (is_str a "COMMENTED"));
  comments ← mapM comment_entry commented;
  allActivities ← call_map activities activity_entry;
  set data "values"
    (if bool_decide (0 < length comments) then VArr comments
     else allActivities).

(** [if (c) { data = step data }] *)
Definition when (c : bool) (step : value → result value) (data : value)
  : result value :=
  if c then step data else Ok data.

Definition transformPaginatedResponse (url : string) (data : value)
  : result value :=
  data ←
    when (includes url "/projects" && negb (includes url "/repos"))
      (map_values workspace) data;
  data ←
    when (includes url "/repos" && negb (includes url "/pull-requests"))
      (map_values repository) data;
  data ←
    when (includes url "/pull-requests/" && includes url "/changes")
      (map_values change_record) data;
  data ←
    when (includes url "/pull-requests/" && includes url "/activities")
      activities_block data;
  when (includes url "/pull-requests"
        && negb (includes url "/changes")
        && negb (includes url "/activities"))
    (map_values pull_request) data.

Definition transformSingleResponse (url : string) (data : value)
  : result value :=
  is_project ←
    (if test re_project_end url then truthy <$> get data "key"
     else Ok false);
  if is_project : bool then workspace data
  else
    is_repo ←
      (if includes url "/repos/" then
         slug ← get data "slug";
         Ok (truthy slug && negb (includes url "/pull-requests"))
       else Ok false);
    if is_repo : bool then repository data
    else
      is_pr ←
        (if includes url "/pull-requests/" then truthy <$> get data "id"
         else Ok false);
      if is_pr : bool then pull_request data
      else Ok data.

End Normalizer.

(** The response of the HTTP client, as far as the adapter reads it. *)
Record response := Response {
  resp_url : option string;     (* response.config.url *)
  resp_data : value
}.

Definition transformResponse (baseUrl : string) (r : response)
  : result response :=
  match resp_url r with
  | None => Ok r
  | Some url =>
      if String.eqb url "" then Ok r
      else
        paginated ←
          (if truthy (resp_data r) then
             truthy <$> get (resp_data r) "values"
           else Ok false);
        if paginated : bool then
          Response (Some url)
            <$> transformPaginatedResponse baseUrl url (resp_data r)
        else if truthy (resp_data r) then
          Response (Some url)
            <$> transformSingleResponse baseUrl url (resp_data r)
        else Ok r
  end.

(** The settled state of the promise an interceptor returns. *)
Inductive promise : Type :=
| Fulfilled (v : value)
| Rejected (reason : value).

Definition transformError (error : value) : result promise :=
  response ← get error "response";
  has_data ←
    (if truthy response then truthy <$> get response "data" else Ok false);
  if has_data : bool then
    errors ← get3 error "response" "data" "errors";
    if truthy errors then
      serverError ← (es ← get3 error "response" "data" "errors";
                     get_index es 0);
      message ←
        (m ← get serverError "message";
         or_else m (get serverError "exceptionName"));
      detail ←
        (c ← get serverError "context";
         or_else c (get serverError "message"));
      response ← get error "response";
      response ←
        set response "data"
          (object
             [("type", VStr "error");
              ("error", object [("message", message);
                                ("detail", detail)])]);
      error ← set error "response" response;
      Ok (Rejected error)
    else Ok (Rejected error)
  else Ok (Rejected error).

(** ** Path segments *)

Fixpoint no_slash (s : string) : bool :=
  match s with
  | EmptyString => true
  | String c s' => negb (is_slash c) && no_slash s'
  end.

(** A path segment: one or more characters, none of them a slash. *)
Definition segment (s : string) : bool :=
  negb (String.eqb s "") && no_slash s.

(** A payload has a field [k] when reading it gives something. *)
Definition has_field (v : value) (k : string) : bool :=
  match get_opt v k with
  | VUndef => false
  | _ => true
  end.

(** The values whose conversion to a string is a plain rendering:
    [undefined], [null], booleans, numbers and strings. *)
Definition scalar (v : value) : bool :=
  match v with
  | VUndef | VNull | VBool _ | VNum _ | VStr _ => true
  | VArr _ | VObj _ | VNative _ => false
  end.

(** The repository entity of the Server dialect used as a sample. *)
Definition sample_repository : value :=
  object
    [("id", VNum 1);
     ("slug", VStr "r");
     ("project",
      object [("id", VNum 2); ("key", VStr "P"); ("name", VStr "Proj")]);
     ("public", VBool false)].

(** A branch is given in a request body as the flat field [flat] or, when
    that is missing, as [side.branch.name]. *)
Definition branch_given (data : value) (flat side branch : string) : Prop :=
  branch ≠ ""
  ∧ (get_opt data flat = VStr branch
     ∨ (truthy (get_opt data flat) = false
        ∧ get_opt (get_opt (get_opt data side) "branch") "name"
          = VStr branch)).

Definition branch_absent (data : value) (flat side : string) : Prop :=
  truthy (get_opt data flat) = false
  ∧ truthy (get_opt (get_opt (get_opt data side) "branch") "name") = false.

(** The reviewers of a request body: a list, or nothing. *)
Definition reviewers_of (data : value) (reviewers : list value) : Prop :=
  get_opt data "reviewers" = VArr reviewers
  ∨ (nullish (get_opt data "reviewers") = true ∧ reviewers = []).

(** An activity of the backend: an object whose user identifiers, when
    present, are scalars. *)
Definition activity_ok (a : value) : Prop :=
  nullish a = false
  ∧ scalar (get_opt (get_opt a "user") "id") = true
  ∧ scalar (get_opt (get_opt (get_opt a "comment") "author") "id") = true.

(** [activity.action === 'COMMENTED'] *)
Definition commented (a : value) : bool :=
  is_str (get_opt a "action") "COMMENTED".

(** A paginated envelope of the backend. *)
Definition page (entries : list value) : value :=
  object [("values", VArr entries); ("isLastPage", VBool true)].

(** An activity with the given action, by user 7. *)
Definition sample_activity (action : string) : value :=
  object [("action", VStr action);
          ("user", object [("id", VNum 7); ("name", VStr "ann")])].

(** ** Paths as lists of segments *)

(** [join [a; b; c]] is the path [/a/b/c]. *)
Fixpoint join (segs : list string) : string :=
  match segs with
  | [] => ""
  | s :: rest => "/" +:+ s +:+ join rest
  end.

(** [s.startsWith(p)] *)
Definition starts_with (s p : string) : bool :=
  match strip_prefix p s with
  | Some _ => true
  | None => false
  end.

(** The first segment that begins with [w]: the segments before it, what
    follows [w] in it, and the segments after it. *)
Fixpoint find_prefix (w : string) (segs : list string)
  : option (list string * string * list string) :=
  match segs with
  | [] => None
  | s :: rest =>
      match strip_prefix w s with
      | Some tail => Some ([], tail, rest)
      | None =>
          match find_prefix w rest with
          | Some (b, tail, a) => Some (s :: b, tail, a)
          | None => None
          end
      end
  end.

(** The first segment equal to [w] that is not the last one: the segments
    before it, the next segment and the segments after that. *)
Fixpoint find_exact (w : string) (segs : list string)
  : option (list string * string * list string) :=
  match segs with
  | [] => None
  | s :: rest =>
      match String.eqb w s, rest with
      | true, next :: after => Some ([], next, after)
      | _, _ =>
          match find_exact w rest with
          | Some (b, next, a) => Some (s :: b, next, a)
          | None => None
          end
      end
  end.

(** The words on which the rules of [transformUrl] fire. *)
Definition reserved : list string :=
  ["pullrequests"; "diffstat"; "branching-model"].

(** A name that is a segment and begins with no reserved word. *)
Definition plain (s : string) : bool :=
  segment s && forallb (λ w, negb (starts_with s w)) reserved.

(** A path on which no rule of [transformUrl] fires. *)
Definition settled (u : string) : bool :=
  negb (starts_with u "/repositories/")
  && negb (starts_with u "/workspaces")
  && forallb (λ w, negb (includes u ("/" +:+ w))) reserved.

(** The text after a segment: nothing, or a slash and more. *)
Definition boundary (t : string) : bool :=
  match t with
  | EmptyString => true
  | String c _ => is_slash c
  end.

Definition shift (s : string) (r : option (string * string))
  : option (string * string) :=
  match r with
  | Some (b, a) => Some (s +:+ b, a)
  | None => None
  end.

(** The first segment equal to [w] that a non-empty segment follows: the
    segments before it, the following segment and the segments after
    that. *)
Fixpoint find_capture (w : string) (segs : list string)
  : option (list string * string * list string) :=
  match segs with
  | [] => None
  | s :: rest =>
      let later :=
        match find_capture w rest with
        | Some (b, next, a) => Some (s :: b, next, a)
        | None => None
        end in
      match rest with
      | next :: after =>
          if String.eqb w s && negb (String.eqb next "")
          then Some ([], next, after)
          else later
      | [] => later
      end
  end.

Definition shift_match (s : string) (r : option captures) : option captures :=
  match r with
  | Some (Captures b m gs a) => Some (Captures (s +:+ b) m gs a)
  | None => None
  end.

(** ** Names of workspaces, repositories and pull requests *)

(** The words on which a substring test or a replacement of [transformUrl]
    acts. *)
Definition keywords : list string :=
  ["pullrequests"; "diff"; "comments"; "activity"; "branching-model";
   "workspaces"].

(** A name that is a segment and begins with no keyword. *)
Definition ordinary (s : string) : bool :=
  segment s && forallb (λ w, negb (starts_with s w)) keywords.

(** ** Dialect detection and installation *)

(** The constructor: every base URL without [bitbucket.org] is a Server. *)
Definition isServer (baseUrl : string) : bool :=
  negb (includes baseUrl "bitbucket.org").

(** The interceptor chains of the HTTP client. *)
Record interceptors := Interceptors {
  on_request : list (config → result config);
  on_response :
    list ((response → result response) * (value → result promise))
}.

Definition install (baseUrl : string) (axios : interceptors) : interceptors :=
  if isServer baseUrl then
    Interceptors
      (on_request axios ++ [transformRequest])
      (on_response axios ++ [(transformResponse baseUrl, transformError)])
  else axios.

(** Whether some block of [transformPaginatedResponse] runs on [url]. *)
Definition normalizes (url : string) : bool :=
  includes url "/projects" && negb (includes url "/repos")
  || includes url "/repos" && negb (includes url "/pull-requests")
  || includes url "/pull-requests/" && includes url "/changes"
  || includes url "/pull-requests/" && includes url "/activities"
  || includes url "/pull-requests" && negb (includes url "/changes")
     && negb (includes url "/activities").

(** ** Pull requests of the backend *)






(** * Properties *)

#[local] Arguments String.append : simpl nomatch.

(** ** Strings and patterns *)

Section StringFacts.

Lemma append_empty_r (s : string) : s +:+ "" = s.
Proof. induction s as [|c s IH]; simpl; [done | by rewrite IH]. Qed.

Lemma append_assoc (a b c : string) : (a +:+ b) +:+ c = a +:+ b +:+ c.
Proof. induction a as [|x a IH]; simpl; [done | by rewrite IH]. Qed.

Lemma strip_prefix_Some (p s r : string) :
  strip_prefix p s = Some r ↔ s = p +:+ r.
Proof.
  revert s. induction p as [|a p IH]; intros s; simpl.
  - split; [by intros [= ->] | by intros ->].
  - destruct s as [|b s]; [split; discriminate |].
    destruct (Ascii.eqb_spec a b) as [->|Hne].
    + rewrite IH. split; [by intros -> | by intros [= ->]].
    + split; [discriminate | intros [= ? ?]; congruence].
Qed.

Lemma strip_prefix_app (p r : string) : strip_prefix p (p +:+ r) = Some r.
Proof. by apply strip_prefix_Some. Qed.

Lemma search_Some (p s b a : string) :
  search p s = Some (b, a) → s = b +:+ p +:+ a.
Proof.
  revert b. induction s as [|c s IH]; intros b; simpl.
  - destruct (strip_prefix p "") as [r|] eqn:E; [|discriminate].
    intros [= <- <-]. by apply strip_prefix_Some in E.
  - destruct (strip_prefix p (String c s)) as [r|] eqn:E.
    + intros [= <- <-]. by apply strip_prefix_Some in E.
    + destruct (search p s) as [[b' a']|] eqn:E'; [|discriminate].
      intros [= <- <-]. simpl. f_equal. by apply IH.
Qed.

Lemma includes_prefix (s p q : string) :
  includes s (p +:+ q) = true → includes s p = true.
Proof.
  unfold includes.
  induction s as [|c s IH]; simpl.
  - destruct (strip_prefix (p +:+ q) "") as [r|] eqn:E; [|discriminate].
    apply strip_prefix_Some in E. intros _.
    destruct p; [done | discriminate].
  - destruct (strip_prefix (p +:+ q) (String c s)) as [r|] eqn:E.
    + apply strip_prefix_Some in E. rewrite append_assoc in E.
      apply strip_prefix_Some in E. by rewrite E.
    + destruct (strip_prefix p (String c s)); [done |].
      destruct (search (p +:+ q) s) as [[??]|]; [|discriminate].
      intros _. specialize (IH eq_refl).
      by destruct (search p s) as [[??]|].
Qed.

Lemma includes_false_prefix (s p q : string) :
  includes s p = false → includes s (p +:+ q) = false.
Proof.
  intros H. destruct (includes s (p +:+ q)) eqn:E; [|done].
  apply includes_prefix in E. congruence.
Qed.

Lemma replace_absent (s p r : string) :
  includes s p = false → Str.replace s p r = s.
Proof.
  unfold includes, Str.replace. by destruct (search p s) as [[??]|].
Qed.

Lemma no_slash_app (a b : string) :
  no_slash (a +:+ b) = no_slash a && no_slash b.
Proof.
  induction a as [|c a IH]; simpl; [done |].
  rewrite IH. by rewrite andb_assoc.
Qed.

Lemma segment_nonempty (s : string) : segment s = true → s ≠ "".
Proof. by destruct s. Qed.

Lemma segment_no_slash (s : string) : segment s = true → no_slash s = true.
Proof. unfold segment. by intros [_ ?]%andb_true_iff. Qed.

End StringFacts.

Section MatcherFacts.
Context {A : Type}.

(** What a successful run of [[^\/]+] took is a segment. *)
Lemma run_seg_inv (k : string → string → option A) (s : string) (x : A) :
  run_seg k s = Some x →
  ∃ g r, s = g +:+ r ∧ segment g = true ∧ k g r = Some x.
Proof.
  revert k. induction s as [|c s IH]; intros k; simpl; [discriminate |].
  destruct (is_slash c) eqn:Hc; [discriminate |].
  destruct (run_seg _ s) as [y|] eqn:E.
  - intros [= ->]. apply IH in E as (g & r & -> & Hg & Hk).
    exists (String c g), r. split_and!; [done | | done].
    unfold segment in *. simpl. rewrite Hc. simpl.
    by apply andb_true_iff in Hg as [_ ->].
  - intros Hk. exists (String c ""), s. split_and!; [done | | done].
    unfold segment. simpl. by rewrite Hc.
Qed.

(** The longest split is tried first. *)
Lemma run_seg_longest (k : string → string → option A) (g r : string) (x : A) :
  segment g = true →
  k g r = Some x →
  run_seg k (g +:+ r) = Some x ∨
  ∃ c r', r = String c r' ∧ is_slash c = false.
Proof.
  revert k. induction g as [|c g IH]; intros k Hg Hk; [done |].
  unfold segment in Hg. simpl in Hg.
  apply andb_true_iff in Hg as [Hc Hg]. apply negb_true_iff in Hc.
  simpl. rewrite Hc.
  destruct g as [|d g].
  - simpl. destruct r as [|e r]; simpl; [by left; rewrite Hk |].
    destruct (is_slash e) eqn:He; [by left; rewrite Hk |].
    right. eauto.
  - destruct (IH (λ g r, k (String c g) r)) as [->|?]; [done..| |]; auto.
Qed.

Lemma run_seg_boundary (k : string → string → option A) (g r : string) (x : A) :
  segment g = true →
  (r = "" ∨ ∃ r', r = String "/" r') →
  k g r = Some x →
  run_seg k (g +:+ r) = Some x.
Proof.
  intros Hg Hr Hk.
  destruct (run_seg_longest k g r x Hg Hk) as [?|(c & r' & -> & Hc)]; [done |].
  destruct Hr as [?|[? [= -> ->]]]; done.
Qed.

End MatcherFacts.

(** ** The anchored repository rules *)

Lemma exec_repo_list (url : string) (m : captures) :
  exec re_repo_list url = Some m ↔
  ∃ ws, segment ws = true ∧ url = "/repositories/" +:+ ws
        ∧ m = Captures "" url [ws] "".
Proof.
  unfold exec, re_repo_list. cbn [re_bol re_body re_eol match_pieces].
  split.
  - destruct (strip_prefix _ url) as [rest|] eqn:E; [|discriminate].
    apply strip_prefix_Some in E as ->.
    destruct (run_seg _ rest) as [[[mt gs] r]|] eqn:E; [|discriminate].
    apply run_seg_inv in E as (g & r' & -> & Hg & Hk).
    destruct r'; [|discriminate]. injection Hk as <- <- <-.
    intros [= <-]. exists g. by rewrite !append_empty_r.
  - intros (ws & Hws & -> & ->).
    rewrite strip_prefix_app.
    rewrite <-(append_empty_r ws) at 1.
    erewrite run_seg_boundary; [|done|by left|done].
    by rewrite !append_empty_r.
Qed.

Lemma exec_repo_single (url : string) (m : captures) :
  exec re_repo_single url = Some m ↔
  ∃ ws repo, segment ws = true ∧ segment repo = true
             ∧ url = "/repositories/" +:+ ws +:+ "/" +:+ repo
             ∧ m = Captures "" url [ws; repo] "".
Proof.
  unfold exec, re_repo_single. cbn [re_bol re_body re_eol match_pieces].
  split.
  - destruct (strip_prefix _ url) as [rest|] eqn:E; [|discriminate].
    apply strip_prefix_Some in E as ->.
    destruct (run_seg _ rest) as [[[mt gs] r]|] eqn:E; [|discriminate].
    apply run_seg_inv in E as (g & r' & -> & Hg & Hk).
    destruct (strip_prefix "/" r') as [rest|] eqn:E; [|discriminate].
    apply strip_prefix_Some in E as ->.
    destruct (run_seg _ rest) as [[[mt' gs'] r'']|] eqn:E; [|discriminate].
    apply run_seg_inv in E as (g' & r' & -> & Hg' & Hk').
    destruct r'; [|discriminate]. injection Hk' as <- <- <-.
    injection Hk as <- <- <-.
    intros [= <-]. exists g, g'. by rewrite !append_empty_r.
  - intros (ws & repo & Hws & Hrepo & -> & ->).
    rewrite strip_prefix_app.
    erewrite run_seg_boundary; [|done|right; by eexists|]; last first.
    { rewrite strip_prefix_app.
      rewrite <-(append_empty_r repo) at 1.
      erewrite run_seg_boundary; [|done|by left|done]. done. }
    by rewrite !append_empty_r.
Qed.

(** The repository list rule on its own paths. *)
Lemma transformUrl_repo_list (ws : string) :
  segment ws = true →
  transformUrl ("/repositories/" +:+ ws)
  = "/rest/api/1.0/projects/" +:+ ws +:+ "/repos".
Proof.
  intros Hws. unfold transformUrl, test, RegExp.replace.
  erewrite (proj2 (exec_repo_list _ _)); [|eauto].
  simpl. by rewrite !append_empty_r.
Qed.

(** The single repository rule on its own paths. *)
Lemma transformUrl_repo_single (ws repo : string) :
  segment ws = true → segment repo = true →
  transformUrl ("/repositories/" +:+ ws +:+ "/" +:+ repo)
  = "/rest/api/1.0/projects/" +:+ ws +:+ "/repos/" +:+ repo.
Proof.
  intros Hws Hrepo. unfold transformUrl, test, RegExp.replace.
  destruct (exec re_repo_list _) as [m|] eqn:E.
  { apply exec_repo_list in E as (ws' & Hws' & E & _).
    apply (f_equal (strip_prefix "/repositories/")) in E.
    rewrite !strip_prefix_app in E. injection E as E.
    apply segment_no_slash in Hws'. rewrite <-E in Hws'.
    rewrite !no_slash_app in Hws'. simpl in Hws'.
    by rewrite andb_false_r in Hws'. }
  erewrite (proj2 (exec_repo_single _ _)); [|eauto 6].
  simpl. by rewrite !append_empty_r.
Qed.

(** C7. [transformUrl] sends [/repositories/ws1] to the repository list of
    project [ws1] and [/repositories/ws1/repo1] to the repository [repo1];
    the two rules are anchored at both ends: the first fires exactly on the
    paths with one segment after [/repositories], the second exactly on
    those with two, and each rewrites the whole path. *)
Theorem transformUrl_repository_rules :
  transformUrl "/repositories/ws1" = "/rest/api/1.0/projects/ws1/repos"
  ∧ transformUrl "/repositories/ws1/repo1"
    = "/rest/api/1.0/projects/ws1/repos/repo1"
  ∧ (∀ url, test re_repo_list url = true ↔
            ∃ ws, segment ws = true ∧ url = "/repositories/" +:+ ws)
  ∧ (∀ url, test re_repo_single url = true ↔
            ∃ ws repo, segment ws = true ∧ segment repo = true
                       ∧ url = "/repositories/" +:+ ws +:+ "/" +:+ repo)
  ∧ (∀ ws, segment ws = true →
           transformUrl ("/repositories/" +:+ ws)
           = "/rest/api/1.0/projects/" +:+ ws +:+ "/repos")
  ∧ (∀ ws repo, segment ws = true → segment repo = true →
                transformUrl ("/repositories/" +:+ ws +:+ "/" +:+ repo)
                = "/rest/api/1.0/projects/" +:+ ws +:+ "/repos/" +:+ repo).
Proof.
  split_and!; [done | done | | | |].
  - intros url. unfold test. split.
    + destruct (exec re_repo_list url) as [m|] eqn:E; [|discriminate].
      apply exec_repo_list in E as (ws & ? & ? & _). eauto.
    + intros (ws & Hws & ->).
      by erewrite (proj2 (exec_repo_list _ _)); [|eauto].
  - intros url. unfold test. split.
    + destruct (exec re_repo_single url) as [m|] eqn:E; [|discriminate].
      apply exec_repo_single in E as (ws & repo & ? & ? & ? & _). eauto.
    + intros (ws & repo & Hws & Hrepo & ->).
      by erewrite (proj2 (exec_repo_single _ _)); [|eauto 6].
  - apply transformUrl_repo_list.
  - apply transformUrl_repo_single.
Qed.

Lemma transformUrl_repository_rules_witness :
  transformUrl ("/repositories/" +:+ "team")
  = "/rest/api/1.0/projects/" +:+ "team" +:+ "/repos"
  ∧ transformUrl ("/repositories/" +:+ "team" +:+ "/" +:+ "site")
    = "/rest/api/1.0/projects/" +:+ "team" +:+ "/repos/" +:+ "site".
Proof.
  destruct transformUrl_repository_rules as (_ & _ & _ & _ & H1 & H2).
  split; [apply H1 | apply H2]; reflexivity.
Defined.

(** ** Searching a path of segments *)

Lemma boundary_join (segs : list string) : boundary (join segs) = true.
Proof. by destruct segs. Qed.

(** A pattern that begins with a slash does not begin inside a segment. *)
Lemma search_seg (p s t : string) :
  no_slash s = true →
  search (String "/" p) (s +:+ t) = shift s (search (String "/" p) t).
Proof.
  intros Hs. induction s as [|c s IH].
  - change ("" +:+ t) with t. unfold shift.
    by destruct (search _ t) as [[??]|].
  - cbn [no_slash] in Hs. apply andb_true_iff in Hs as [Hc Hs].
    apply negb_true_iff in Hc. unfold is_slash in Hc.
    rewrite Ascii.eqb_sym in Hc.
    change (String c s +:+ t) with (String c (s +:+ t)).
    cbn [search strip_prefix]. rewrite Hc.
    rewrite (IH Hs). unfold shift. by destruct (search _ t) as [[??]|].
Qed.

(** A word without a slash is matched inside one segment. *)
Lemma strip_prefix_seg (w s t : string) :
  no_slash w = true → boundary t = true →
  strip_prefix w (s +:+ t)
  = match strip_prefix w s with
    | Some tail => Some (tail +:+ t)
    | None => None
    end.
Proof.
  intros Hw Ht. revert s. induction w as [|c w IH]; intros s; [done |].
  cbn [no_slash] in Hw. apply andb_true_iff in Hw as [Hc Hw].
  apply negb_true_iff in Hc.
  destruct s as [|d s].
  - change ("" +:+ t) with t. cbn [strip_prefix].
    destruct t as [|e t]; [done |]. cbn [boundary] in Ht.
    unfold is_slash in *. cbn [strip_prefix].
    destruct (Ascii.eqb_spec c e) as [->|]; [congruence | done].
  - change (String d s +:+ t) with (String d (s +:+ t)).
    cbn [strip_prefix]. destruct (Ascii.eqb c d); [by apply IH | done].
Qed.

(** A word followed by a slash is matched by a whole segment. *)
Lemma strip_prefix_seg_exact (w s t : string) :
  no_slash w = true → no_slash s = true → boundary t = true →
  strip_prefix (w +:+ "/") (s +:+ t)
  = if String.eqb w s then strip_prefix "/" t else None.
Proof.
  intros Hw Hs Ht. revert s Hs. induction w as [|c w IH]; intros s Hs.
  - destruct s as [|d s]; [done |]. cbn [no_slash] in Hs.
    apply andb_true_iff in Hs as [Hd _]. apply negb_true_iff in Hd.
    unfold is_slash in Hd.
    change ("" +:+ "/") with (String "/" "").
    change (String d s +:+ t) with (String d (s +:+ t)).
    cbn [strip_prefix String.eqb]. by rewrite Ascii.eqb_sym, Hd.
  - cbn [no_slash] in Hw. apply andb_true_iff in Hw as [Hc Hw].
    apply negb_true_iff in Hc.
    change (String c w +:+ "/") with (String c (w +:+ "/")).
    destruct s as [|d s].
    + change ("" +:+ t) with t. cbn [String.eqb].
      destruct t as [|e t]; [done |]. cbn [boundary] in Ht.
      unfold is_slash in *. cbn [strip_prefix].
      destruct (Ascii.eqb_spec c e) as [->|]; [congruence | done].
    + cbn [no_slash] in Hs. apply andb_true_iff in Hs as [_ Hs].
      change (String d s +:+ t) with (String d (s +:+ t)).
      cbn [strip_prefix String.eqb].
      destruct (Ascii.eqb c d); [by apply IH | done].
Qed.

Lemma search_join_prefix (w : string) (segs : list string) :
  no_slash w = true → forallb no_slash segs = true →
  search ("/" +:+ w) (join segs)
  = match find_prefix w segs with
    | Some (b, tail, a) => Some (join b, tail +:+ join a)
    | None => None
    end.
Proof.
  intros Hw. induction segs as [|s segs IH]; intros Hsegs.
  - simpl. by destruct w.
  - simpl in Hsegs. apply andb_true_iff in Hsegs as [Hs Hsegs].
    cbn [join find_prefix]. change ("/" +:+ w) with (String "/" w).
    change ("/" +:+ s +:+ join segs) with (String "/" (s +:+ join segs)).
    cbn [search strip_prefix]. rewrite Ascii.eqb_refl.
    rewrite strip_prefix_seg by auto using boundary_join.
    destruct (strip_prefix w s) as [tail|]; [done |].
    rewrite search_seg by done.
    change (String "/" w) with ("/" +:+ w). rewrite (IH Hsegs).
    by destruct (find_prefix w segs) as [[[b tail] a]|].
Qed.

Lemma search_join_exact (w : string) (segs : list string) :
  no_slash w = true → forallb no_slash segs = true →
  search ("/" +:+ w +:+ "/") (join segs)
  = match find_exact w segs with
    | Some (b, next, a) => Some (join b, next +:+ join a)
    | None => None
    end.
Proof.
  intros Hw. induction segs as [|s segs IH]; intros Hsegs.
  - simpl. by destruct w.
  - simpl in Hsegs. apply andb_true_iff in Hsegs as [Hs Hsegs].
    cbn [join find_exact].
    change ("/" +:+ w +:+ "/") with (String "/" (w +:+ "/")).
    change ("/" +:+ s +:+ join segs) with (String "/" (s +:+ join segs)).
    cbn [search strip_prefix]. rewrite Ascii.eqb_refl.
    rewrite strip_prefix_seg_exact by auto using boundary_join.
    assert (Hrest :
      match (String "/" (s +:+ join segs)) with
      | EmptyString => None
      | String c s' =>
          match search (String "/" (w +:+ "/")) s' with
          | Some (b, a) => Some (String c b, a)
          | None => None
          end
      end
      = match find_exact w segs with
        | Some (b, next, a) => Some (join (s :: b), next +:+ join a)
        | None => None
        end).
    { rewrite search_seg by done.
      change (String "/" (w +:+ "/")) with ("/" +:+ w +:+ "/").
      rewrite (IH Hsegs).
      by destruct (find_exact w segs) as [[[b next] a]|]. }
    destruct (String.eqb w s).
    + destruct segs as [|next after]; [done |].
      cbn [join]. change ("/" +:+ next +:+ join after)
        with (String "/" (next +:+ join after)).
      by cbn [strip_prefix]; rewrite Ascii.eqb_refl.
    + rewrite Hrest. by destruct (find_exact w segs) as [[[b next] a]|].
Qed.

Lemma includes_join (w : string) (segs : list string) :
  no_slash w = true → forallb no_slash segs = true →
  includes (join segs) ("/" +:+ w) = existsb (λ s, starts_with s w) segs.
Proof.
  intros Hw Hsegs. unfold includes. rewrite search_join_prefix by done.
  clear Hsegs. induction segs as [|s segs IH]; [done |].
  cbn [find_prefix existsb]. unfold starts_with at 1.
  destruct (strip_prefix w s); [done |]. rewrite <-IH.
  by destruct (find_prefix w segs) as [[[??]?]|].
Qed.

Lemma join_app (a b : list string) : join (a ++ b) = join a +:+ join b.
Proof.
  induction a as [|s a IH]; [done |].
  cbn [join app]. rewrite IH.
  change ("/" +:+ s +:+ join a +:+ join b)
    with (String "/" (s +:+ join a +:+ join b)).
  change (("/" +:+ s +:+ join a) +:+ join b)
    with (String "/" ((s +:+ join a) +:+ join b)).
  by rewrite append_assoc.
Qed.

Lemma starts_with_false (s w : string) :
  starts_with s w = false → strip_prefix w s = None.
Proof. unfold starts_with. by destruct (strip_prefix w s). Qed.

(** Replacing [/w/] by [/w'/] renames the first inner segment [w]. *)
Lemma replace_join_exact (w w' r : string) (segs b a : list string)
    (next : string) :
  no_slash w = true → forallb no_slash segs = true →
  find_exact w segs = Some (b, next, a) →
  (∀ m, expand r m = "/" +:+ w' +:+ "/") →
  Str.replace (join segs) ("/" +:+ w +:+ "/") r = join (b ++ w' :: next :: a).
Proof.
  intros Hw Hsegs Hfind Hr. unfold Str.replace.
  rewrite search_join_exact, Hfind, Hr by done.
  rewrite join_app. cbn [join].
  change (("/" +:+ w' +:+ "/") +:+ next +:+ join a)
    with (String "/" ((w' +:+ "/") +:+ next +:+ join a)).
  change ("/" +:+ w' +:+ "/" +:+ next +:+ join a)
    with (String "/" (w' +:+ "/" +:+ next +:+ join a)).
  by rewrite append_assoc.
Qed.

(** Replacing [/w] by [/w'] rewrites the head of the first segment that
    begins with [w]. *)
Lemma replace_join_prefix (w w' r : string) (segs b a : list string)
    (tail : string) :
  no_slash w = true → forallb no_slash segs = true →
  find_prefix w segs = Some (b, tail, a) →
  (∀ m, expand r m = "/" +:+ w') →
  Str.replace (join segs) ("/" +:+ w) r = join (b ++ (w' +:+ tail) :: a).
Proof.
  intros Hw Hsegs Hfind Hr. unfold Str.replace.
  rewrite search_join_prefix, Hfind, Hr by done.
  rewrite join_app. cbn [join].
  change (("/" +:+ w') +:+ tail +:+ join a)
    with (String "/" (w' +:+ tail +:+ join a)).
  change ("/" +:+ (w' +:+ tail) +:+ join a)
    with (String "/" ((w' +:+ tail) +:+ join a)).
  by rewrite append_assoc.
Qed.

Lemma app_slash_inj (a a' x x' : string) :
  no_slash a = true → no_slash a' = true →
  a +:+ String "/" x = a' +:+ String "/" x' → a = a' ∧ x = x'.
Proof.
  revert a'. induction a as [|c a IH]; intros [|c' a'] Ha Ha' E.
  - by injection E.
  - injection E as <- _. by cbn [no_slash is_slash] in Ha'.
  - injection E as -> _. by cbn [no_slash is_slash] in Ha.
  - injection E as <- E. cbn [no_slash] in Ha, Ha'.
    apply andb_true_iff in Ha as [_ Ha]. apply andb_true_iff in Ha' as [_ Ha'].
    destruct (IH a' Ha Ha' E) as [-> ->]. done.
Qed.

(** The anchored rules do not fire below a repository. *)
Lemma test_repo_list_deep (a b : string) (rest : list string) :
  test re_repo_list (join ("repositories" :: a :: b :: rest)) = false.
Proof.
  unfold test. destruct (exec re_repo_list _) as [m|] eqn:E; [|done].
  apply exec_repo_list in E as (ws & Hws & E & _).
  apply (f_equal (strip_prefix "/repositories/")) in E.
  rewrite strip_prefix_app in E.
  change (join ("repositories" :: a :: b :: rest))
    with ("/repositories/" +:+ a +:+ "/" +:+ b +:+ join rest) in E.
  rewrite strip_prefix_app in E. injection E as <-.
  apply segment_no_slash in Hws. rewrite no_slash_app in Hws.
  apply andb_true_iff in Hws as [_ Hws]. done.
Qed.

Lemma test_repo_single_deep (a b c : string) (rest : list string) :
  no_slash a = true →
  test re_repo_single (join ("repositories" :: a :: b :: c :: rest)) = false.
Proof.
  intros Ha. unfold test.
  destruct (exec re_repo_single _) as [m|] eqn:E; [|done].
  apply exec_repo_single in E as (ws & repo & Hws & Hrepo & E & _).
  apply (f_equal (strip_prefix "/repositories/")) in E.
  rewrite strip_prefix_app in E.
  change (join ("repositories" :: a :: b :: c :: rest))
    with ("/repositories/" +:+ a +:+ "/" +:+ b +:+ "/" +:+ c +:+ join rest)
    in E.
  rewrite strip_prefix_app in E. injection E as E.
  apply app_slash_inj in E as [_ E];
    [|done|by apply segment_no_slash].
  apply segment_no_slash in Hrepo. rewrite <-E, no_slash_app in Hrepo.
  apply andb_true_iff in Hrepo as [_ Hrepo]. done.
Qed.

(** The prefix rule on a path below a repository. *)
Lemma replace_repo_prefix (ws repo : string) (rest : list string) :
  segment ws = true → segment repo = true →
  RegExp.replace (join ("repositories" :: ws :: repo :: rest))
    re_repo_prefix server_repo
  = join ("rest" :: "api" :: "1.0" :: "projects" :: ws :: "repos" :: repo
            :: rest).
Proof.
  intros Hws Hrepo. unfold RegExp.replace, exec, re_repo_prefix.
  cbn [re_bol re_body re_eol match_pieces].
  change (join ("repositories" :: ws :: repo :: rest))
    with ("/repositories/" +:+ ws +:+ "/" +:+ repo +:+ join rest).
  rewrite strip_prefix_app.
  erewrite run_seg_boundary; [|done|right; by eexists|]; last first.
  { rewrite strip_prefix_app.
    erewrite run_seg_boundary;
      [| done | destruct rest; [by left | right; by eexists] | done].
    done. }
  cbn [c_before c_after]. unfold server_repo. simpl.
  by rewrite !append_empty_r, ?append_assoc.
Qed.

(** ** Plain names *)

Lemma plain_inv (s : string) :
  plain s = true →
  segment s = true ∧ no_slash s = true
  ∧ strip_prefix "pullrequests" s = None
  ∧ strip_prefix "diffstat" s = None
  ∧ strip_prefix "branching-model" s = None
  ∧ String.eqb "pullrequests" s = false.
Proof.
  unfold plain, reserved. cbn [forallb].
  intros H. apply andb_true_iff in H as [Hseg H].
  apply andb_true_iff in H as [H1 H]. apply andb_true_iff in H as [H2 H].
  apply andb_true_iff in H as [H3 _].
  apply negb_true_iff, starts_with_false in H1.
  apply negb_true_iff, starts_with_false in H2.
  apply negb_true_iff, starts_with_false in H3.
  split_and!; try done; [by apply segment_no_slash |].
  destruct (String.eqb_spec "pullrequests" s) as [<-|]; [discriminate | done].
Qed.

Ltac plain_facts H :=
  let Hseg := fresh "Hseg" in
  let Hns := fresh "Hns" in
  let Hpr := fresh "Hpr" in
  let Hdiff := fresh "Hdiff" in
  let Hbm := fresh "Hbm" in
  let Heq := fresh "Heq" in
  destruct (plain_inv _ H) as (Hseg & Hns & Hpr & Hdiff & Hbm & Heq).

(** The diffstat endpoint of a pull request, for names that begin with no
    reserved word: the mapping the source documents. *)
Lemma transformUrl_diffstat (ws repo id : string) :
  plain ws = true → plain repo = true → plain id = true →
  transformUrl
    ("/repositories/" +:+ ws +:+ "/" +:+ repo +:+ "/pullrequests/" +:+ id
       +:+ "/diffstat")
  = "/rest/api/1.0/projects/" +:+ ws +:+ "/repos/" +:+ repo
      +:+ "/pull-requests/" +:+ id +:+ "/changes".
Proof.
  intros Hws Hrepo Hid.
  plain_facts Hws. plain_facts Hrepo. plain_facts Hid.
  change ("/repositories/" +:+ ws +:+ "/" +:+ repo +:+ "/pullrequests/"
            +:+ id +:+ "/diffstat")
    with (join ["repositories"; ws; repo; "pullrequests"; id; "diffstat"]).
  unfold transformUrl.
  rewrite test_repo_list_deep, test_repo_single_deep by done.
  assert (includes
            (join ["repositories"; ws; repo; "pullrequests"; id; "diffstat"])
            "/diffstat" = true) as ->.
  { rewrite (includes_join "diffstat") by (cbn; by rewrite ?Hns, ?Hns0, ?Hns1).
    cbn [existsb]. unfold starts_with. by rewrite Hdiff, Hdiff0, Hdiff1. }
  rewrite (replace_join_exact "pullrequests" "pull-requests" _ _
             ["repositories"; ws; repo] ["diffstat"] id);
    [| done | cbn; by rewrite ?Hns, ?Hns0, ?Hns1
     | cbn [find_exact]; by rewrite Heq, Heq0 | done].
  cbn [app]. rewrite replace_repo_prefix by done.
  rewrite (replace_join_prefix "diffstat" "changes" _ _
             ["rest"; "api"; "1.0"; "projects"; ws; "repos"; repo;
              "pull-requests"; id] [] "");
    [done | done | cbn; by rewrite ?Hns, ?Hns0, ?Hns1
     | cbn [find_prefix]; by rewrite Hdiff, Hdiff0, Hdiff1 | done].
Qed.

(** ** The URL rewriter on pull-request paths *)

Example transformUrl_samples :
  transformUrl "/repositories/ws/repo/pullrequests/5/diffstat"
  = "/rest/api/1.0/projects/ws/repos/repo/pull-requests/5/changes"
  ∧ transformUrl "/repositories/ws/repo/pullrequests/5/diff"
    = "/rest/api/1.0/projects/ws/repos/repo/pull-requests/5/diff"
  ∧ transformUrl "/repositories/ws/repo/pullrequests/5/comments"
    = "/rest/api/1.0/projects/ws/repos/repo/pull-requests/5/activities"
  ∧ transformUrl "/repositories/ws/repo/pullrequests/5/activity"
    = "/rest/api/1.0/projects/ws/repos/repo/pull-requests/5/activities"
  ∧ transformUrl "/repositories/ws/repo/pullrequests/5"
    = "/rest/api/1.0/projects/ws/repos/repo/pull-requests/5"
  ∧ transformUrl "/repositories/ws/repo/pullrequests"
    = "/rest/api/1.0/projects/ws/repos/repo/pull-requests"
  ∧ transformUrl "/workspaces" = "/rest/api/1.0/projects"
  ∧ transformUrl "/workspaces/ws" = "/rest/api/1.0/projects/ws"
  ∧ transformUrl "/workspaces/ws/projects/P/branching-model"
    = "/rest/api/1.0/projects/ws/projects/P/restrictions"
  ∧ transformUrl "/user" = "/user".
Proof. split_and!; reflexivity. Qed.

(** C1 at a repository whose slug begins with [diffstat].  The rewrite of
    [/diffstat] into [/changes] is a replacement of the first occurrence,
    and the first occurrence is the repository segment: the slug is
    rewritten and the final [/diffstat] stays.  Likewise a workspace named
    [pullrequests] takes the rewrite meant for the [/pullrequests/]
    segment. *)
Theorem transformUrl_diffstat_in_name :
  let out := transformUrl "/repositories/ws/diffstat/pullrequests/5/diffstat" in
  out = "/rest/api/1.0/projects/ws/repos/changes/pull-requests/5/diffstat"
  ∧ includes out "/diffstat" = true
  ∧ includes out "/pull-requests/5/changes" = false
  ∧ transformUrl "/repositories/pullrequests/repo/pullrequests/5/diffstat"
    = "/rest/api/1.0/projects/pull-requests/repos/repo/pullrequests/5/changes".
Proof. split_and!; reflexivity. Qed.

(** ** Idempotence *)

Lemma strip_prefix_None_app (p q s : string) :
  strip_prefix p s = None → strip_prefix (p +:+ q) s = None.
Proof.
  revert s. induction p as [|a p IH]; intros s; simpl; [discriminate |].
  destruct s as [|b s]; [done |].
  destruct (Ascii.eqb a b); [apply IH | done].
Qed.

Lemma test_bol_lit (l : string) (ps : list piece) (eol : bool) (s : string) :
  strip_prefix l s = None → test (Regex true (Lit l :: ps) eol) s = false.
Proof. intros H. unfold test, exec. simpl. by rewrite H. Qed.

(** A path that no rule recognizes is left as it is. *)
Lemma transformUrl_fixed (u : string) :
  strip_prefix "/repositories/" u = None →
  strip_prefix "/workspaces" u = None →
  includes u "/diffstat" = false →
  includes u "/pullrequests" = false →
  includes u "/branching-model" = false →
  transformUrl u = u.
Proof.
  intros Hrepo Hws Hdiff Hpr Hbm.
  unfold transformUrl, re_repo_list, re_repo_single, re_workspace.
  rewrite !(test_bol_lit "/repositories/") by done.
  rewrite (test_bol_lit "/workspaces/")
    by apply (strip_prefix_None_app "/workspaces" "/"), Hws.
  pose proof (includes_false_prefix u "/pullrequests" "/" Hpr) as Hpr'.
  change ("/pullrequests" +:+ "/") with "/pullrequests/" in Hpr'.
  rewrite Hdiff, Hpr, Hpr', Hbm.
  rewrite !andb_false_r. simpl.
  destruct (String.eqb_spec u "/workspaces") as [->|_]; [discriminate | done].
Qed.

(** C10, as stated, fails: a workspace whose name begins with [diffstat]
    is rewritten to a path that the diffstat rule rewrites again. *)
Lemma transformUrl_not_idempotent :
  transformUrl "/repositories/diffstat"
  = "/rest/api/1.0/projects/diffstat/repos"
  ∧ transformUrl (transformUrl "/repositories/diffstat")
    = "/rest/api/1.0/projects/changes/repos"
  ∧ transformUrl (transformUrl "/repositories/diffstat")
    ≠ transformUrl "/repositories/diffstat".
Proof. split_and!; [reflexivity | reflexivity | discriminate]. Qed.

(** ** Settled paths *)

Lemma settled_fixed (u : string) : settled u = true → transformUrl u = u.
Proof.
  unfold settled, reserved. cbn [forallb]. intros H.
  apply andb_true_iff in H as [H H3]. apply andb_true_iff in H as [H1 H2].
  apply andb_true_iff in H3 as [Hpr H3]. apply andb_true_iff in H3 as [Hd H3].
  apply andb_true_iff in H3 as [Hbm _].
  apply negb_true_iff, starts_with_false in H1.
  apply negb_true_iff, starts_with_false in H2.
  apply negb_true_iff in Hpr, Hd, Hbm.
  by apply transformUrl_fixed.
Qed.

Lemma plain_no_slash (segs : list string) :
  forallb plain segs = true → forallb no_slash segs = true.
Proof.
  rewrite !forallb_forall. intros H s Hs.
  by destruct (plain_inv s (H s Hs)) as (_ & ? & _).
Qed.

Lemma plain_not_reserved (w : string) (segs : list string) :
  w ∈ reserved → forallb plain segs = true →
  existsb (λ s, starts_with s w) segs = false.
Proof.
  intros Hw Hsegs. apply not_true_iff_false. intros E.
  apply existsb_exists in E as (s & Hs & E).
  rewrite forallb_forall in Hsegs.
  destruct (plain_inv s (Hsegs s Hs)) as (_ & _ & H1 & H2 & H3 & _).
  unfold starts_with in E. unfold reserved in Hw.
  repeat (apply elem_of_cons in Hw as [->|Hw]; [by rewrite ?H1, ?H2, ?H3 in E |]).
  by apply elem_of_nil in Hw.
Qed.

(** A path of the versioned Server tree whose segments are plain is
    settled. *)
Lemma settled_server_path (segs : list string) :
  forallb plain segs = true →
  settled (join ("rest" :: "api" :: "1.0" :: "projects" :: segs)) = true.
Proof.
  intros Hsegs.
  assert (Hall : forallb plain ("rest" :: "api" :: "1.0" :: "projects" :: segs)
                 = true) by (cbn [forallb]; by rewrite Hsegs).
  unfold settled. apply andb_true_iff. split; [done |].
  apply forallb_forall. intros w Hw. apply list_elem_of_In in Hw.
  rewrite includes_join.
  - by rewrite (plain_not_reserved w _ Hw Hall).
  - unfold reserved in Hw.
    repeat (apply elem_of_cons in Hw as [->|Hw]; [done |]).
    by apply elem_of_nil in Hw.
  - by apply plain_no_slash.
Qed.

(** C10, as amended.  [transformUrl] is idempotent on every path whose
    rewritten form is settled: it begins with neither [/repositories/] nor
    [/workspaces] and contains none of [/pullrequests], [/diffstat] and
    [/branching-model], so that no rule fires on it and the second
    application returns it unchanged.  Every path of the Server tree
    [/rest/api/1.0/projects/...] whose segments begin with no reserved word
    is settled; in particular the rewrite is idempotent on the repository
    list, the single repository and the diffstat endpoint, for plain
    names. *)
Theorem transformUrl_idempotent_settled :
  (∀ url, settled (transformUrl url) = true →
          transformUrl (transformUrl url) = transformUrl url)
  ∧ (∀ segs, forallb plain segs = true →
             settled (join ("rest" :: "api" :: "1.0" :: "projects" :: segs))
             = true)
  ∧ (∀ ws, plain ws = true →
           transformUrl (transformUrl ("/repositories/" +:+ ws))
           = transformUrl ("/repositories/" +:+ ws))
  ∧ (∀ ws repo, plain ws = true → plain repo = true →
       transformUrl
         (transformUrl ("/repositories/" +:+ ws +:+ "/" +:+ repo))
       = transformUrl ("/repositories/" +:+ ws +:+ "/" +:+ repo))
  ∧ (∀ ws repo id, plain ws = true → plain repo = true → plain id = true →
       transformUrl
         (transformUrl
            ("/repositories/" +:+ ws +:+ "/" +:+ repo +:+ "/pullrequests/"
               +:+ id +:+ "/diffstat"))
       = transformUrl
           ("/repositories/" +:+ ws +:+ "/" +:+ repo +:+ "/pullrequests/"
              +:+ id +:+ "/diffstat")).
Proof.
  split_and!.
  - intros url. apply settled_fixed.
  - apply settled_server_path.
  - intros ws Hws. apply settled_fixed.
    destruct (plain_inv ws Hws) as (Hseg & _).
    rewrite transformUrl_repo_list by done.
    apply (settled_server_path [ws; "repos"]). cbn [forallb]. by rewrite Hws.
  - intros ws repo Hws Hrepo. apply settled_fixed.
    destruct (plain_inv ws Hws) as (Hseg & _).
    destruct (plain_inv repo Hrepo) as (Hseg' & _).
    rewrite transformUrl_repo_single by done.
    replace ("/rest/api/1.0/projects/" +:+ ws +:+ "/repos/" +:+ repo)
      with (join ["rest"; "api"; "1.0"; "projects"; ws; "repos"; repo])
      by (cbn [join]; by rewrite (append_empty_r repo)).
    apply settled_server_path. cbn [forallb]. by rewrite Hws, Hrepo.
  - intros ws repo id Hws Hrepo Hid. apply settled_fixed.
    rewrite transformUrl_diffstat by done.
    apply (settled_server_path [ws; "repos"; repo; "pull-requests"; id;
                                "changes"]).
    cbn [forallb]. by rewrite Hws, Hrepo, Hid.
Qed.

Lemma transformUrl_idempotent_settled_witness :
  transformUrl
    (transformUrl ("/repositories/" +:+ "team" +:+ "/" +:+ "site"
                     +:+ "/pullrequests/" +:+ "5" +:+ "/diffstat"))
  = transformUrl ("/repositories/" +:+ "team" +:+ "/" +:+ "site"
                    +:+ "/pullrequests/" +:+ "5" +:+ "/diffstat").
Proof.
  destruct transformUrl_idempotent_settled as (_ & _ & _ & _ & H).
  apply H; reflexivity.
Defined.

(** ** Capturing a segment of a path *)

(** A pattern that begins with a slash does not match inside a segment. *)
Lemma scan_seg (p : string) (ps : list piece) (eol : bool) (s t : string) :
  no_slash s = true →
  scan (Lit (String "/" p) :: ps) eol (s +:+ t)
  = shift_match s (scan (Lit (String "/" p) :: ps) eol t).
Proof.
  intros Hs. induction s as [|c s IH].
  - change ("" +:+ t) with t. unfold shift_match.
    by destruct (scan _ eol t) as [[]|].
  - cbn [no_slash] in Hs. apply andb_true_iff in Hs as [Hc Hs].
    apply negb_true_iff in Hc. unfold is_slash in Hc.
    rewrite Ascii.eqb_sym in Hc.
    change (String c s +:+ t) with (String c (s +:+ t)).
    cbn [scan match_pieces strip_prefix]. rewrite Hc.
    rewrite (IH Hs). unfold shift_match.
    by destruct (scan _ eol t) as [[]|].
Qed.

Lemma run_seg_boundary_None {A} (k : string → string → option A) (t : string) :
  boundary t = true → run_seg k t = None.
Proof. destruct t as [|c t]; [done |]. simpl. by intros ->. Qed.

(** [/\/w\/([^\/]+)/] captures the segment after the first segment [w]
    that has a non-empty successor. *)
Lemma scan_join_capture (w : string) (segs : list string) :
  no_slash w = true → forallb no_slash segs = true →
  scan [Lit ("/" +:+ w +:+ "/"); Seg true] false (join segs)
  = match find_capture w segs with
    | Some (b, next, a) =>
        Some (Captures (join b) (("/" +:+ w +:+ "/") +:+ next) [next]
                (join a))
    | None => None
    end.
Proof.
  intros Hw. induction segs as [|s segs IH]; intros Hsegs.
  - cbn [join scan match_pieces find_capture].
    change ("/" +:+ w +:+ "/") with (String "/" (w +:+ "/")). done.
  - cbn [forallb] in Hsegs. apply andb_true_iff in Hsegs as [Hs Hsegs].
    specialize (IH Hsegs).
    change ("/" +:+ w +:+ "/") with (String "/" (w +:+ "/")) in *.
    assert (Hlater :
      match String "/" (s +:+ join segs) with
      | EmptyString => None
      | String c s' =>
          match scan [Lit (String "/" (w +:+ "/")); Seg true] false s' with
          | Some (Captures b m gs r) => Some (Captures (String c b) m gs r)
          | None => None
          end
      end
      = match find_capture w segs with
        | Some (b, next, a) =>
            Some (Captures (join (s :: b))
                    (String "/" (w +:+ "/") +:+ next) [next] (join a))
        | None => None
        end).
    { rewrite scan_seg by done. rewrite IH.
      by destruct (find_capture w segs) as [[[b next] a]|]. }
    cbn [join find_capture].
    change ("/" +:+ s +:+ join segs) with (String "/" (s +:+ join segs)).
    cbn [scan match_pieces strip_prefix]. rewrite Ascii.eqb_refl.
    rewrite strip_prefix_seg_exact by auto using boundary_join.
    destruct segs as [|next after].
    { cbn [join strip_prefix] in *.
      destruct (String.eqb w s); by rewrite Hlater. }
    cbn [forallb] in Hsegs. apply andb_true_iff in Hsegs as [Hnext Hafter].
    destruct (String.eqb w s); cbn [andb];
      [|rewrite Hlater;
        by destruct (find_capture w (next :: after)) as [[[??]?]|]].
    cbn [join] in Hlater |- *. change ("/" +:+ next +:+ join after)
      with (String "/" (next +:+ join after)) in *.
    cbn [strip_prefix]. rewrite Ascii.eqb_refl.
    destruct (String.eqb_spec next "") as [->|Hne]; cbn [negb].
    + change ("" +:+ join after) with (join after) in *.
      rewrite run_seg_boundary_None by apply boundary_join.
      rewrite Hlater.
      by destruct (find_capture w ("" :: after)) as [[[??]?]|].
    + erewrite run_seg_boundary;
        [| unfold segment; by rewrite (proj2 (String.eqb_neq next "")), Hnext
         | destruct after; [by left | right; by eexists]
         | done].
      by rewrite append_empty_r.
Qed.

(** On the path of a repository of the Server tree, the patterns of
    [transformRequestBody] capture the project key and the repository
    slug. *)
Lemma match_group1_server_path (key slug : string) (rest : list string) :
  segment key = true → segment slug = true → key ≠ "repos" →
  forallb no_slash rest = true →
  let url :=
    join ("rest" :: "api" :: "1.0" :: "projects" :: key :: "repos" :: slug
            :: rest) in
  match_group1 re_projects url = VStr key
  ∧ match_group1 re_repos url = VStr slug.
Proof.
  intros Hkey Hslug Hne Hrest url.
  pose proof (segment_no_slash _ Hkey) as Hk.
  pose proof (segment_no_slash _ Hslug) as Hs.
  assert (Hk' : String.eqb key "" = false).
  { apply String.eqb_neq. by apply segment_nonempty. }
  assert (Hs' : String.eqb slug "" = false).
  { apply String.eqb_neq. by apply segment_nonempty. }
  assert (Hr : String.eqb "repos" key = false).
  { apply String.eqb_neq. congruence. }
  assert (Hsegs : forallb no_slash
                    ("rest" :: "api" :: "1.0" :: "projects" :: key :: "repos"
                       :: slug :: rest) = true).
  { cbn [forallb]. by rewrite Hk, Hs, Hrest. }
  unfold match_group1, exec, re_projects, re_repos, url.
  cbn [re_bol re_body re_eol]. split.
  - change "/projects/" with ("/" +:+ "projects" +:+ "/").
    rewrite scan_join_capture by done.
    cbn [find_capture]. by rewrite Hk'.
  - change "/repos/" with ("/" +:+ "repos" +:+ "/").
    rewrite scan_join_capture by done.
    cbn [find_capture]. rewrite Hr, Hs'. cbn [andb negb].
    assert (String.eqb "repos" "projects" && negb (String.eqb key "") = false)
      as -> by done.
    done.
Qed.

(** ** Values *)

Lemma is_str_true (v : value) (s : string) : is_str v s = true ↔ v = VStr s.
Proof.
  destruct v; simpl; try (split; [discriminate | by intros [=]]).
  rewrite String.eqb_eq. split; [by intros -> | by intros [= ->]].
Qed.

Lemma is_str_false (v : value) (s : string) : is_str v s = false ↔ v ≠ VStr s.
Proof.
  rewrite <-is_str_true. by destruct (is_str v s).
Qed.

Lemma get_ok (v : value) (k : string) :
  nullish v = false → get v k = Ok (get_opt v k).
Proof. unfold get_opt. by destruct v. Qed.

Lemma get_nullish (v : value) (k : string) :
  nullish v = true → get v k = Throw TypeError.
Proof. by destruct v. Qed.

Lemma get_Ok_nullish (v x : value) (k : string) :
  get v k = Ok x → nullish v = false.
Proof. by destruct v. Qed.

Lemma truthy_not_nullish (v : value) : truthy v = true → nullish v = false.
Proof. by destruct v. Qed.

(** ** Query parameters *)

(** C6. For every query-parameter map, [transformParams] renames [pagelen]
    to [limit] and keeps its value, turns the state [SUPERSEDED] into
    [DECLINED], and leaves every other state value and every other
    parameter as it was. *)
Theorem transformParams_spec (params : value) :
  let p := spread params in
  let t := transformParams params in
  (∀ v, p !! "pagelen" = Some v →
        t !! "limit" = Some v ∧ t !! "pagelen" = None)
  ∧ (p !! "pagelen" = None → t !! "limit" = p !! "limit")
  ∧ (p !! "state" = Some (VStr "SUPERSEDED") →
     t !! "state" = Some (VStr "DECLINED"))
  ∧ (p !! "state" ≠ Some (VStr "SUPERSEDED") → t !! "state" = p !! "state")
  ∧ (∀ k, k ≠ "pagelen" → k ≠ "limit" → k ≠ "state" → t !! k = p !! k)
  ∧ transformParams (object [("pagelen", VNum 25)]) = {[ "limit" := VNum 25 ]}
  ∧ transformParams (object [("state", VStr "SUPERSEDED")])
    = {[ "state" := VStr "DECLINED" ]}
  ∧ transformParams (object [("state", VStr "OPEN")])
    = {[ "state" := VStr "OPEN" ]}.
Proof.
  intros p t. subst t. unfold transformParams. fold p.
  set (q := match p !! "pagelen" with
            | Some pagelen => delete "pagelen" (<["limit" := pagelen]> p)
            | None => p
            end).
  assert (Hq : ∀ k, k ≠ "pagelen" → k ≠ "limit" → q !! k = p !! k).
  { intros k ??. subst q. destruct (p !! "pagelen"); [|done].
    by rewrite lookup_delete_ne, lookup_insert_ne. }
  assert (Hstate : q !! "state" = p !! "state") by by apply Hq.
  set (t := match q !! "state" with
            | Some state =>
                if truthy state && is_str state "SUPERSEDED"
                then <["state" := VStr "DECLINED"]> q else q
            | None => q
            end).
  assert (Ht : ∀ k, k ≠ "state" → t !! k = q !! k).
  { intros k ?. subst t. destruct (q !! "state") as [st|]; [|done].
    destruct (_ && _); [|done]. by rewrite lookup_insert_ne. }
  split_and!.
  - intros v Hv. rewrite !Ht by done. subst q. rewrite Hv.
    by rewrite lookup_delete_eq, lookup_delete_ne, lookup_insert_eq.
  - intros Hp. rewrite Ht by done. subst q. by rewrite Hp.
  - intros Hp. subst t. rewrite Hstate, Hp. simpl.
    by rewrite lookup_insert_eq.
  - intros Hp. subst t. rewrite Hstate.
    destruct (p !! "state") as [st|] eqn:E; [|done].
    destruct (is_str st "SUPERSEDED") eqn:Es.
    { apply is_str_true in Es. congruence. }
    by rewrite andb_false_r.
  - intros k ???. by rewrite Ht, Hq.
  - done.
  - done.
  - done.
Qed.

Lemma transformParams_spec_witness :
  let params :=
    object [("pagelen", VNum 25); ("state", VStr "SUPERSEDED");
            ("q", VStr "x")] in
  transformParams params !! "limit" = Some (VNum 25)
  ∧ transformParams params !! "pagelen" = None
  ∧ transformParams params !! "state" = Some (VStr "DECLINED")
  ∧ transformParams params !! "q" = Some (VStr "x").
Proof.
  intros params.
  destruct (transformParams_spec params) as (H1 & _ & H3 & _ & H5 & _).
  destruct (H1 (VNum 25)) as [Hl Hp]; [reflexivity |].
  split_and!; [exact Hl | exact Hp | apply H3; reflexivity |].
  rewrite H5; [reflexivity | discriminate..].
Defined.

(** ** Single entities *)

Lemma has_field_truthy (v : value) (k : string) :
  has_field v k = false → truthy (get_opt v k) = false.
Proof. unfold has_field. by destruct (get_opt v k). Qed.

(** The three rules of [transformSingleResponse] test the URL and the
    truth of one field; when none fires the payload is returned. *)
Lemma transformSingleResponse_default (baseUrl url : string) (data : value) :
  nullish data = false →
  test re_project_end url && truthy (get_opt data "key") = false →
  includes url "/repos/" && truthy (get_opt data "slug")
    && negb (includes url "/pull-requests") = false →
  includes url "/pull-requests/" && truthy (get_opt data "id") = false →
  transformSingleResponse baseUrl url data = Ok data.
Proof.
  intros Hd H1 H2 H3. unfold transformSingleResponse.
  rewrite !(get_ok data) by done. simpl.
  destruct (test re_project_end url); simpl in *; rewrite ?H1; simpl.
  all: destruct (includes url "/repos/"); simpl in *; rewrite ?H2; simpl.
  all: destruct (includes url "/pull-requests/"); simpl in *; by rewrite ?H3.
Qed.

(** C9. A single-entity payload that matches none of the three rules
    (path ending in [/projects/{key}] with a [key] field, path containing
    [/repos/] with a [slug] field, path containing [/pull-requests/] with an
    [id] field) is returned unchanged, by the normalizer and by the response
    hook that calls it on every payload without a [values] list. *)
Theorem transformSingleResponse_unrecognized
    (baseUrl url : string) (data : value) :
  test re_project_end url && has_field data "key" = false →
  includes url "/repos/" && has_field data "slug" = false →
  includes url "/pull-requests/" && has_field data "id" = false →
  (nullish data = false → transformSingleResponse baseUrl url data = Ok data)
  ∧ (truthy (get_opt data "values") = false →
     transformResponse baseUrl (Response (Some url) data)
     = Ok (Response (Some url) data)).
Proof.
  intros H1 H2 H3.
  assert (Hs : nullish data = false →
               transformSingleResponse baseUrl url data = Ok data).
  { intros Hd. apply transformSingleResponse_default; [done | | |].
    - apply andb_false_iff in H1 as [->|H]; [done |].
      by rewrite (has_field_truthy _ _ H), andb_false_r.
    - apply andb_false_iff in H2 as [->|H]; [done |].
      by rewrite (has_field_truthy _ _ H), andb_false_r.
    - apply andb_false_iff in H3 as [->|H]; [done |].
      by rewrite (has_field_truthy _ _ H), andb_false_r. }
  split; [done |].
  intros Hv. unfold transformResponse. simpl.
  destruct (String.eqb url ""); [done |].
  destruct (truthy data) eqn:Ht; [|done].
  apply truthy_not_nullish in Ht.
  rewrite get_ok by done. simpl. rewrite Hv.
  by rewrite Hs.
Qed.

Lemma transformSingleResponse_unrecognized_witness :
  transformSingleResponse "https://git.example.com"
    "/rest/api/1.0/projects/P/repos/r/commits/abc"
    (object [("displayId", VStr "abc"); ("message", VStr "fix")])
  = Ok (object [("displayId", VStr "abc"); ("message", VStr "fix")]).
Proof.
  by apply (transformSingleResponse_unrecognized "https://git.example.com"
              "/rest/api/1.0/projects/P/repos/r/commits/abc"
              (object [("displayId", VStr "abc"); ("message", VStr "fix")])).
Defined.

Lemma to_string_scalar (v : value) :
  scalar v = true → ∃ s, to_string v = Ok s.
Proof. destruct v as [| |[]| | | | |]; simpl; try done; eauto. Qed.

Lemma braced_scalar (v : value) :
  scalar v = true → ∃ s, braced v = Ok (VStr s).
Proof.
  intros (s & Hs)%to_string_scalar. unfold braced. rewrite Hs. simpl. eauto.
Qed.

(** C5. For a request URL containing [/repos/] and not [/pull-requests],
    the sample repository [{id:1, slug:"r", project:{id:2, key:"P",
    name:"Proj"}, public:false}] is normalized to a repository with
    [full_name] ["P/r"] and [is_private] [true]; in general, for a
    repository entity with slug [slug] and project key [key], [full_name]
    is [key/slug] and [is_private] is the negation of [public]. *)
Theorem transformSingleResponse_repository (baseUrl url : string) :
  includes url "/repos/" = true →
  includes url "/pull-requests" = false →
  (∃ r, transformSingleResponse baseUrl url sample_repository = Ok r
        ∧ get r "full_name" = Ok (VStr "P/r")
        ∧ get r "is_private" = Ok (VBool true))
  ∧ (∀ data project key slug,
       get data "slug" = Ok (VStr slug) → slug ≠ "" →
       get data "project" = Ok project →
       get project "key" = Ok (VStr key) →
       has_field data "key" = false →
       scalar (get_opt data "id") = true →
       scalar (get_opt project "id") = true →
       ∃ r, transformSingleResponse baseUrl url data = Ok r
            ∧ get r "full_name" = Ok (VStr (key +:+ "/" +:+ slug))
            ∧ get r "is_private"
              = Ok (VBool (negb (truthy (get_opt data "public"))))).
Proof.
  intros Hrepos Hpr.
  assert (Hgen : ∀ data project key slug,
       get data "slug" = Ok (VStr slug) → slug ≠ "" →
       get data "project" = Ok project →
       get project "key" = Ok (VStr key) →
       has_field data "key" = false →
       scalar (get_opt data "id") = true →
       scalar (get_opt project "id") = true →
       ∃ r, transformSingleResponse baseUrl url data = Ok r
            ∧ get r "full_name" = Ok (VStr (key +:+ "/" +:+ slug))
            ∧ get r "is_private"
              = Ok (VBool (negb (truthy (get_opt data "public"))))).
  { intros data project key slug Hslug Hne Hproject Hkey Hnokey Hid Hpid.
    pose proof (get_Ok_nullish _ _ _ Hslug) as Hd.
    pose proof (get_Ok_nullish _ _ _ Hkey) as Hp.
    apply braced_scalar in Hid as [sid Hid].
    apply braced_scalar in Hpid as [spid Hpid].
    apply has_field_truthy in Hnokey.
    unfold transformSingleResponse.
    rewrite Hrepos, Hpr, Hslug.
    assert (truthy (VStr slug) = true) as Hts.
    { simpl. apply negb_true_iff, String.eqb_neq. done. }
    rewrite (get_ok data "key") by done.
    cbn [mbind result_bind fmap result_fmap]. rewrite Hnokey, Hts.
    replace (if test re_project_end url then Ok false else Ok false)
      with (Ok false : result bool) by by destruct (test _ _).
    simpl.
    unfold repository, get2, opt2.
    rewrite Hproject, Hslug. simpl. rewrite Hkey. simpl.
    rewrite !(get_ok data) by done. simpl.
    rewrite !(get_ok project) by done. simpl.
    rewrite Hid, Hpid. simpl.
    eexists. split; [reflexivity |]. split; reflexivity. }
  split; [|done].
  by apply (Hgen sample_repository
              (object [("id", VNum 2); ("key", VStr "P");
                       ("name", VStr "Proj")]) "P" "r").
Qed.

Lemma transformSingleResponse_repository_witness :
  ∃ r, transformSingleResponse "https://git.example.com"
         "/rest/api/1.0/projects/P/repos/r" sample_repository = Ok r
       ∧ get r "full_name" = Ok (VStr "P/r")
       ∧ get r "is_private" = Ok (VBool true).
Proof.
  apply (transformSingleResponse_repository "https://git.example.com"
           "/rest/api/1.0/projects/P/repos/r"); reflexivity.
Defined.

(** ** Request bodies *)

Lemma mapM_Ok {A B} (f : A → B) (l : list A) :
  mapM (λ x, Ok (f x)) l = Ok (f <$> l).
Proof.
  induction l as [|x l IH]; [done |].
  change (mapM (λ x, Ok (f x)) (x :: l))
    with (y ← Ok (f x); k ← mapM (λ x, Ok (f x)) l; Ok (y :: k)).
  by rewrite IH.
Qed.

Lemma branch_given_or_else (data : value) (flat side branch : string) :
  branch_given data flat side branch →
  or_else (get_opt data flat)
    (Ok (get_opt (get_opt (get_opt data side) "branch") "name"))
  = Ok (VStr branch).
Proof.
  intros [Hne [Hflat|[Hflat Hnested]]]; unfold or_else.
  - rewrite Hflat. simpl.
    by rewrite (proj2 (String.eqb_neq branch "")).
  - by rewrite Hflat, Hnested.
Qed.

Lemma branch_absent_or_else (data : value) (flat side : string) :
  branch_absent data flat side →
  ∃ v, or_else (get_opt data flat)
         (Ok (get_opt (get_opt (get_opt data side) "branch") "name"))
       = Ok v ∧ truthy v = false.
Proof.
  intros [Hflat Hnested]. unfold or_else. rewrite Hflat. eauto.
Qed.

(** C8. On a rewritten path containing [/pull-requests], a body that gives
    a source branch, flat or nested, is turned into the creation body of the
    Server dialect: [fromRef] and [toRef] are
    [{ id: "refs/heads/<branch>", repository: { slug, project: { key } } }]
    with the slug and the key captured from the path by
    [/\/repos\/([^\/]+)/] and [/\/projects\/([^\/]+)/] (on
    [/rest/api/1.0/projects/{key}/repos/{slug}/...] they are [{slug}] and
    [{key}]), the target branch
    is ["master"] when the body gives none, and every reviewer becomes
    [{ user: { name } }].  On any other path the body is returned as it
    is. *)
Theorem transformRequestBody_spec :
  (∀ url data source target reviewers,
     includes url "/pull-requests" = true →
     nullish data = false →
     branch_given data "sourceBranch" "source" source →
     branch_given data "targetBranch" "destination" target
     ∨ (branch_absent data "targetBranch" "destination"
        ∧ target = "master") →
     reviewers_of data reviewers →
     ∃ body,
       transformRequestBody url data = Ok body
       ∧ get body "fromRef"
         = Ok (object
                 [("id", VStr ("refs/heads/" +:+ source));
                  ("repository",
                   object
                     [("slug", match_group1 re_repos url);
                      ("project",
                       object [("key", match_group1 re_projects url)])])])
       ∧ get body "toRef"
         = Ok (object
                 [("id", VStr ("refs/heads/" +:+ target));
                  ("repository",
                   object
                     [("slug", match_group1 re_repos url);
                      ("project",
                       object [("key", match_group1 re_projects url)])])])
       ∧ get body "reviewers"
         = Ok (VArr ((λ name, object [("user", object [("name", name)])])
                       <$> reviewers)))
  ∧ match_group1 re_repos "/rest/api/1.0/projects/P/repos/r/pull-requests"
    = VStr "r"
  ∧ match_group1 re_projects "/rest/api/1.0/projects/P/repos/r/pull-requests"
    = VStr "P"
  ∧ (∀ key slug rest,
       segment key = true → segment slug = true → key ≠ "repos" →
       forallb no_slash rest = true →
       let url :=
         join ("rest" :: "api" :: "1.0" :: "projects" :: key :: "repos"
                 :: slug :: rest) in
       match_group1 re_projects url = VStr key
       ∧ match_group1 re_repos url = VStr slug)
  ∧ (∀ url data,
       includes url "/pull-requests" = false →
       transformRequestBody url data = Ok data).
Proof.
  split_and!; [| done | done | apply match_group1_server_path |].
  - intros url data source target reviewers Hurl Hd Hsrc Htgt Hrev.
    unfold transformRequestBody. rewrite Hurl.
    repeat (rewrite (get_ok data) by done; cbn [mbind result_bind]).
    rewrite (branch_given_or_else _ _ _ _ Hsrc).
    cbn [mbind result_bind].
    repeat (rewrite (get_ok data) by done; cbn [mbind result_bind]).
    assert (Hts : truthy (VStr source) = true).
    { destruct Hsrc as [Hne _]. simpl.
      by rewrite (proj2 (String.eqb_neq source "")). }
    rewrite Hts.
    assert (∃ nested,
      or_else (get_opt data "targetBranch")
        (Ok (get_opt (get_opt (get_opt data "destination") "branch") "name"))
      = Ok nested
      ∧ to_string (or_val nested (VStr "master")) = Ok target)
      as (nested & -> & Hto).
    { destruct Htgt as [Htgt|[Habs ->]].
      - rewrite (branch_given_or_else _ _ _ _ Htgt).
        eexists. split; [done |]. destruct Htgt as [Hne _].
        unfold or_val. simpl.
        by rewrite (proj2 (String.eqb_neq target "")).
      - destruct (branch_absent_or_else _ _ _ Habs) as (v & -> & Hv).
        eexists. split; [done |]. unfold or_val. by rewrite Hv. }
    cbn [mbind result_bind to_string].
    rewrite Hto. cbn [mbind result_bind].
    assert (call_map_opt (get_opt data "reviewers")
              (λ username,
                 Ok (object [("user", object [("name", username)])]))
            = Ok (if nullish (get_opt data "reviewers") then VUndef
                  else VArr ((λ name,
                                object [("user", object [("name", name)])])
                               <$> reviewers))) as ->.
    { unfold call_map_opt.
      destruct Hrev as [->|[-> ->]]; [|done].
      simpl. by rewrite mapM_Ok. }
    cbn [mbind result_bind].
    eexists. split; [reflexivity |].
    split_and!; [reflexivity | reflexivity |].
    destruct Hrev as [->|[-> ->]]; reflexivity.
  - intros url data Hurl. unfold transformRequestBody. by rewrite Hurl.
Qed.

Lemma transformRequestBody_spec_witness :
  let url := "/rest/api/1.0/projects/P/repos/r/pull-requests" in
  let data :=
    object [("title", VStr "Fix");
            ("source",
             object [("branch", object [("name", VStr "feature")])]);
            ("reviewers", VArr [VStr "ann"])] in
  ∃ body,
    transformRequestBody url data = Ok body
    ∧ get2 body "fromRef" "id" = Ok (VStr "refs/heads/feature")
    ∧ get2 body "toRef" "id" = Ok (VStr "refs/heads/master")
    ∧ get body "reviewers"
      = Ok (VArr [object [("user", object [("name", VStr "ann")])]]).
Proof.
  intros url data.
  destruct transformRequestBody_spec as (H & _).
  destruct (H url data "feature" "master" [VStr "ann"])
    as (body & Hb & Hfrom & Hto & Hrev).
  - reflexivity.
  - reflexivity.
  - split; [discriminate |]. right. split; reflexivity.
  - right. split; [split; reflexivity | reflexivity].
  - left. reflexivity.
  - exists body. unfold get2. rewrite Hfrom, Hto.
    split_and!; [exact Hb | reflexivity | reflexivity | exact Hrev].
Defined.

(** A pull-request creation through the request hook. *)
Example transformRequest_create :
  let out :=
    transformRequest
      (Config (Some "/repositories/P/r/pullrequests") (Some "post")
         (object [("pagelen", VNum 10)])
         (object [("title", VStr "Fix");
                  ("sourceBranch", VStr "feature");
                  ("targetBranch", VStr "main")])
         None) in
  cfg_url <$> out = Ok (Some "/rest/api/1.0/projects/P/repos/r/pull-requests")
  ∧ cfg_params <$> out = Ok (object [("limit", VNum 10)])
  ∧ cfg_originalPath <$> out = Ok (Some "/repositories/P/r/pullrequests")
  ∧ (c ← out; get2 (cfg_data c) "fromRef" "id")
    = Ok (VStr "refs/heads/feature")
  ∧ (c ← out; get2 (cfg_data c) "toRef" "id") = Ok (VStr "refs/heads/main")
  ∧ (c ← out; get3 (cfg_data c) "toRef" "repository" "slug") = Ok (VStr "r").
Proof. split_and!; vm_compute; reflexivity. Qed.

(** ** Paginated responses *)

Lemma mapM_Forall2 {A B} (f : A → result B) (P : A → B → Prop)
    (l : list A) :
  Forall (λ x, ∃ y, f x = Ok y ∧ P x y) l →
  ∃ rs, mapM f l = Ok rs ∧ Forall2 P l rs.
Proof.
  induction 1 as [|x l (y & Hy & HP) _ (rs & Hrs & IH)].
  - by exists [].
  - exists (y :: rs). split; [|by constructor].
    change (mapM f (x :: l)) with (y ← f x; k ← mapM f l; Ok (y :: k)).
    by rewrite Hy, Hrs.
Qed.

Lemma call_filter_Ok (p : value → bool) (l : list value) :
  call_filter (VArr l) (λ x, Ok (p x)) = Ok (List.filter p l).
Proof.
  simpl. induction l as [|x l IH]; [done |].
  rewrite IH. simpl. by destruct (p x).
Qed.

Lemma call_filter_ext (p q : value → result bool) (l : list value) :
  Forall (λ x, p x = q x) l →
  call_filter (VArr l) p = call_filter (VArr l) q.
Proof.
  simpl. induction 1 as [|x l Hx _ IH]; [done |]. by rewrite Hx, IH.
Qed.

Lemma includes_pull_requests (url : string) :
  includes url "/pull-requests/" = true → includes url "/pull-requests" = true.
Proof. apply (includes_prefix url "/pull-requests" "/"). Qed.

Lemma map_values_object (f : value → result value)
    (m : gmap string value) (l rs : list value) :
  m !! "values" = Some (VArr l) →
  mapM f l = Ok rs →
  map_values f (VObj m) = Ok (VObj (<["values" := VArr rs]> m)).
Proof.
  intros Hm Hrs. unfold map_values. simpl. rewrite Hm. simpl.
  by rewrite Hrs.
Qed.

(** One file change of the backend as a record of the Cloud dialect. *)
Lemma change_record_spec (c : value) :
  nullish c = false →
  ∃ r, change_record c = Ok r
       ∧ get r "status" = Ok (or_val (get_opt c "type") (VStr "modified"))
       ∧ get r "new"
         = Ok (if truthy (get_opt c "path")
               then object [("path", get_opt (get_opt c "path") "toString")]
               else VNull)
       ∧ get r "old"
         = Ok (if truthy (get_opt c "srcPath")
               then object
                      [("path", get_opt (get_opt c "srcPath") "toString")]
               else VNull)
       ∧ get r "lines_added"
         = Ok (or_val (get_opt c "linesAdded") (VNum 0))
       ∧ get r "lines_removed"
         = Ok (or_val (get_opt c "linesRemoved") (VNum 0)).
Proof.
  intros Hc. unfold change_record, get2.
  repeat (rewrite (get_ok c) by done; cbn [mbind result_bind]).
  destruct (truthy (get_opt c "path")) eqn:Hp;
    destruct (truthy (get_opt c "srcPath")) eqn:Hs.
  all: repeat (rewrite (get_ok c) by done; cbn [mbind result_bind]).
  all: rewrite ?(get_ok (get_opt c "path")) by by apply truthy_not_nullish.
  all: rewrite ?(get_ok (get_opt c "srcPath")) by by apply truthy_not_nullish.
  all: cbn [mbind result_bind].
  all: repeat (rewrite (get_ok c) by done; cbn [mbind result_bind]).
  all: eexists; split; [reflexivity |]; split_and!; reflexivity.
Qed.

(** C3, as amended.  For a request URL containing [/pull-requests/] and
    [/changes], and none of the other mappings' markers, every entry of the
    page is normalized to a file-change record: [status] is the [type] of
    the backend or ['modified'] when that is missing; [new] is
    [{ path: path.toString }], the [toString] member of the backend's [path]
    object, and [old] is [{ path: srcPath.toString }], each [null] when the
    field is missing; [lines_added] and [lines_removed] are the counts of
    the backend, or zero when they are missing. *)
Theorem transformPaginatedResponse_changes
    (baseUrl url : string) (m : gmap string value) (changes : list value) :
  includes url "/pull-requests/" = true →
  includes url "/changes" = true →
  includes url "/activities" = false →
  includes url "/projects" && negb (includes url "/repos") = false →
  m !! "values" = Some (VArr changes) →
  Forall (λ c, nullish c = false) changes →
  ∃ records,
    transformPaginatedResponse baseUrl url (VObj m)
    = Ok (VObj (<["values" := VArr records]> m))
    ∧ Forall2
        (λ c r,
           get r "status" = Ok (or_val (get_opt c "type") (VStr "modified"))
           ∧ get r "new"
             = Ok (if truthy (get_opt c "path")
                   then object
                          [("path", get_opt (get_opt c "path") "toString")]
                   else VNull)
           ∧ get r "old"
             = Ok (if truthy (get_opt c "srcPath")
                   then object
                          [("path",
                            get_opt (get_opt c "srcPath") "toString")]
                   else VNull)
           ∧ get r "lines_added"
             = Ok (or_val (get_opt c "linesAdded") (VNum 0))
           ∧ get r "lines_removed"
             = Ok (or_val (get_opt c "linesRemoved") (VNum 0))
           ∧ (∀ n, get_opt c "linesAdded" = VNum n →
                   get r "lines_added" = Ok (VNum n))
           ∧ (∀ n, get_opt c "linesRemoved" = VNum n →
                   get r "lines_removed" = Ok (VNum n)))
        changes records.
Proof.
  intros Hpr Hch Hact Hproj Hm Hall.
  destruct (mapM_Forall2 change_record
              (λ c r,
                 get r "status"
                 = Ok (or_val (get_opt c "type") (VStr "modified"))
                 ∧ get r "new"
                   = Ok (if truthy (get_opt c "path")
                         then object
                                [("path",
                                  get_opt (get_opt c "path") "toString")]
                         else VNull)
                 ∧ get r "old"
                   = Ok (if truthy (get_opt c "srcPath")
                         then object
                                [("path",
                                  get_opt (get_opt c "srcPath") "toString")]
                         else VNull)
                 ∧ get r "lines_added"
                   = Ok (or_val (get_opt c "linesAdded") (VNum 0))
                 ∧ get r "lines_removed"
                   = Ok (or_val (get_opt c "linesRemoved") (VNum 0))
                 ∧ (∀ n, get_opt c "linesAdded" = VNum n →
                         get r "lines_added" = Ok (VNum n))
                 ∧ (∀ n, get_opt c "linesRemoved" = VNum n →
                         get r "lines_removed" = Ok (VNum n)))
              changes) as (records & Hrecords & Hspec).
  { eapply Forall_impl; [exact Hall |]. intros c Hc. simpl in Hc.
    destruct (change_record_spec c Hc) as (r & Hr & H1 & H2 & H3 & H4 & H5).
    exists r. split_and!; try done.
    - intros n Hn. rewrite H4, Hn. unfold or_val. simpl.
      by destruct (n =? 0)%Z eqn:E; [apply Z.eqb_eq in E as ->|].
    - intros n Hn. rewrite H5, Hn. unfold or_val. simpl.
      by destruct (n =? 0)%Z eqn:E; [apply Z.eqb_eq in E as ->|]. }
  exists records. split; [|done].
  unfold transformPaginatedResponse.
  rewrite Hproj, Hpr, Hch, Hact, (includes_pull_requests _ Hpr).
  rewrite !andb_false_r. cbn [andb negb when mbind result_bind].
  by rewrite (map_values_object _ _ _ _ Hm Hrecords).
Qed.

Lemma transformPaginatedResponse_changes_witness :
  ∃ records,
    transformPaginatedResponse "https://git.example.com"
      "/rest/api/1.0/projects/P/repos/r/pull-requests/5/changes"
      (page [object [("type", VStr "ADD"); ("linesAdded", VNum 3)]])
    = Ok (VObj (<["values" := VArr records]>
                  (list_to_map [("values",
                                 VArr [object [("type", VStr "ADD");
                                               ("linesAdded", VNum 3)]]);
                                ("isLastPage", VBool true)])))
    ∧ length records = 1.
Proof.
  destruct (transformPaginatedResponse_changes "https://git.example.com"
              "/rest/api/1.0/projects/P/repos/r/pull-requests/5/changes"
              (list_to_map [("values",
                             VArr [object [("type", VStr "ADD");
                                           ("linesAdded", VNum 3)]]);
                            ("isLastPage", VBool true)])
              [object [("type", VStr "ADD"); ("linesAdded", VNum 3)]])
    as (records & Hr & Hspec);
    [reflexivity | reflexivity | reflexivity | reflexivity | reflexivity
    | by repeat constructor |].
  exists records. split; [exact Hr |].
  by apply Forall2_length in Hspec.
Defined.

(** C3, as stated, fails: [new.path] is not the backend's [path] field but
    its [toString] member. *)
Lemma changes_path_counterexample :
  let path := object [("toString", VStr "src/a.ts"); ("name", VStr "a.ts")] in
  let change := object [("type", VStr "MODIFY"); ("path", path)] in
  ∃ r, transformPaginatedResponse "https://git.example.com"
         "/rest/api/1.0/projects/P/repos/r/pull-requests/5/changes"
         (object [("values", VArr [change])])
       = Ok (object [("values", VArr [r])])
       ∧ get change "path" = Ok path
       ∧ get2 r "new" "path" = Ok (VStr "src/a.ts")
       ∧ get2 r "new" "path" ≠ get change "path".
Proof.
  intros path change. eexists. split; [reflexivity |].
  split_and!; [reflexivity | reflexivity | discriminate].
Qed.

(** *** Activities *)

Lemma or_else_Ok (a b : value) : or_else a (Ok b) = Ok (or_val a b).
Proof. unfold or_else, or_val. by destruct (truthy a). Qed.

Lemma scalar_or_val (a b : value) :
  scalar a = true → scalar b = true → scalar (or_val a b) = true.
Proof. unfold or_val. by destruct (truthy a). Qed.

(** A [COMMENTED] activity becomes a comment. *)
Lemma comment_entry_spec (a : value) :
  activity_ok a →
  ∃ r, comment_entry a = Ok r
       ∧ get r "type" = Ok (VStr "pullrequest_comment")
       ∧ get r "id"
         = Ok (or_val (get_opt (get_opt a "comment") "id") (get_opt a "id"))
       ∧ get2 r "content" "raw"
         = Ok (or_val (get_opt (get_opt a "comment") "text") (VStr "")).
Proof.
  intros (Ha & Hu & Hc). unfold comment_entry, content, opt3, opt2.
  repeat (rewrite ?(get_ok a), ?or_else_Ok by done; cbn [mbind result_bind]).
  destruct (braced_scalar _ (scalar_or_val _ _ Hu Hc)) as [s ->].
  cbn [mbind result_bind].
  eexists. split; [reflexivity |]. split_and!; reflexivity.
Qed.

(** Any activity becomes an entry of the log: an update envelope, with a
    [comment] for [COMMENTED] and an [approval] for [APPROVED] and
    [UNAPPROVED]. *)
Lemma activity_entry_spec (a : value) :
  activity_ok a →
  ∃ r, activity_entry a = Ok r
       ∧ has_field r "update" = true
       ∧ get2 r "update" "date" = Ok (get_opt a "createdDate")
       ∧ has_field r "comment" = commented a
       ∧ has_field r "approval"
         = negb (commented a)
           && (is_str (get_opt a "action") "APPROVED"
               || is_str (get_opt a "action") "UNAPPROVED")
       ∧ (commented a = false →
          is_str (get_opt a "action") "APPROVED"
          || is_str (get_opt a "action") "UNAPPROVED" = false →
          ∃ update, r = VObj {[ "update" := update ]}).
Proof.
  intros (Ha & Hu & Hc). unfold activity_entry, activity_user, content,
    opt3, opt2, commented.
  repeat (rewrite ?(get_ok a) by done; cbn [mbind result_bind]).
  destruct (braced_scalar _ Hu) as [s Hs]. rewrite !Hs.
  cbn [mbind result_bind].
  destruct (is_str (get_opt a "action") "COMMENTED") eqn:E1.
  - repeat (rewrite ?(get_ok a) by done; cbn [mbind result_bind]).
    destruct (braced_scalar _ Hc) as [s' ->]. cbn [mbind result_bind].
    eexists. split; [reflexivity |]. split_and!; try reflexivity.
    discriminate.
  - destruct (is_str (get_opt a "action") "APPROVED"
              || is_str (get_opt a "action") "UNAPPROVED") eqn:E2.
    + repeat (rewrite ?(get_ok a) by done; cbn [mbind result_bind]).
      eexists. split; [reflexivity |]. split_and!; try reflexivity.
      discriminate.
    + eexists. split; [reflexivity |]. split_and!; try reflexivity.
      intros _ _. by eexists.
Qed.

Lemma filter_commented (acts : list value) :
  Forall (λ a, nullish a = false) acts →
  call_filter (VArr acts)
    (λ activity, a ← get activity "action"; Ok (is_str a "COMMENTED"))
  = Ok (List.filter commented acts).
Proof.
  intros Hacts. rewrite <-call_filter_Ok. apply call_filter_ext.
  eapply Forall_impl; [exact Hacts |]. intros a Ha. simpl in Ha.
  by rewrite get_ok.
Qed.

Lemma Forall_filter {A} (P : A → Prop) (f : A → bool) (l : list A) :
  Forall P l → Forall P (List.filter f l).
Proof.
  induction 1 as [|x l Hx _ IH]; simpl; [done |].
  destruct (f x); [by constructor | done].
Qed.

Lemma filter_nil_Forall {A} (f : A → bool) (l : list A) :
  List.filter f l = [] → Forall (λ x, f x = false) l.
Proof.
  induction l as [|x l IH]; simpl; [done |].
  destruct (f x) eqn:E; [discriminate |]. by constructor; [|apply IH].
Qed.

(** The activities mapping where no other mapping applies: the comments of
    the [COMMENTED] entries when there are any, else the whole log, none of
    whose entries has a [comment]; [APPROVED] and [UNAPPROVED] entries have
    an [approval], the others are the bare update envelope. *)
Lemma transformPaginatedResponse_activities
    (baseUrl url : string) (m : gmap string value) (acts : list value) :
  includes url "/pull-requests/" = true →
  includes url "/activities" = true →
  includes url "/changes" = false →
  includes url "/projects" && negb (includes url "/repos") = false →
  m !! "values" = Some (VArr acts) →
  Forall activity_ok acts →
  ∃ entries,
    transformPaginatedResponse baseUrl url (VObj m)
    = Ok (VObj (<["values" := VArr entries]> m))
    ∧ (List.filter commented acts ≠ [] →
       Forall2
         (λ a r, comment_entry a = Ok r
                 ∧ get r "type" = Ok (VStr "pullrequest_comment"))
         (List.filter commented acts) entries)
    ∧ (List.filter commented acts = [] →
       Forall2
         (λ a r, activity_entry a = Ok r
                 ∧ has_field r "update" = true
                 ∧ has_field r "comment" = false
                 ∧ has_field r "approval"
                   = (is_str (get_opt a "action") "APPROVED"
                      || is_str (get_opt a "action") "UNAPPROVED")
                 ∧ (is_str (get_opt a "action") "APPROVED"
                    || is_str (get_opt a "action") "UNAPPROVED" = false →
                    ∃ update, r = VObj {[ "update" := update ]}))
         acts entries).
Proof.
  intros Hpr Hact Hch Hproj Hm Hacts.
  assert (Hnn : Forall (λ a, nullish a = false) acts).
  { eapply Forall_impl; [exact Hacts |]. by intros a (? & _). }
  destruct (mapM_Forall2 comment_entry
              (λ a r, comment_entry a = Ok r
                      ∧ get r "type" = Ok (VStr "pullrequest_comment"))
              (List.filter commented acts)) as (comments & Hcs & Hcspec).
  { apply Forall_filter. eapply Forall_impl; [exact Hacts |].
    intros a Ha. simpl. destruct (comment_entry_spec a Ha) as (r & ? & ? & _).
    eauto. }
  destruct (mapM_Forall2 activity_entry
              (λ a r, activity_entry a = Ok r
                      ∧ has_field r "update" = true
                      ∧ has_field r "comment" = commented a
                      ∧ has_field r "approval"
                        = negb (commented a)
                          && (is_str (get_opt a "action") "APPROVED"
                              || is_str (get_opt a "action") "UNAPPROVED")
                      ∧ (commented a = false →
                         is_str (get_opt a "action") "APPROVED"
                         || is_str (get_opt a "action") "UNAPPROVED" = false →
                         ∃ update, r = VObj {[ "update" := update ]}))
              acts) as (log & Hlog & Hlspec).
  { eapply Forall_impl; [exact Hacts |].
    intros a Ha. simpl.
    destruct (activity_entry_spec a Ha) as (r & ? & ? & _ & ? & ? & ?).
    eauto 8. }
  exists (if bool_decide (0 < length comments) then comments else log).
  split_and!.
  - unfold transformPaginatedResponse.
    rewrite Hproj, Hpr, Hact, Hch, (includes_pull_requests _ Hpr).
    rewrite ?andb_false_r. cbn [andb negb when mbind result_bind].
    unfold activities_block. cbn [get]. rewrite Hm.
    cbn [mbind result_bind]. change (or_val (VArr acts) _) with (VArr acts).
    rewrite (filter_commented _ Hnn). cbn [mbind result_bind].
    rewrite Hcs. cbn [mbind result_bind call_map fmap result_fmap].
    rewrite Hlog. cbn [mbind result_bind set].
    by destruct (bool_decide (0 < length comments)).
  - intros Hne. rewrite bool_decide_true; [done |].
    apply Forall2_length in Hcspec. rewrite <-Hcspec.
    destruct (List.filter commented acts); [done | simpl; lia].
  - intros Hnil. rewrite bool_decide_false.
    + apply filter_nil_Forall in Hnil.
      clear -Hlspec Hnil.
      induction Hlspec as [|a r acts log (?&?&Hc&Ha&Hb) _ IH].
      * constructor.
      * inversion Hnil as [|?? Hca Hnil']; subst.
        rewrite Hca in Hc, Ha. constructor; [|by apply IH].
        split_and!; try done. by apply Hb.
    + apply Forall2_length in Hcspec. rewrite <-Hcspec, Hnil. simpl. lia.
Qed.

(** C2 at a repository whose slug begins with [changes].  The comments
    endpoint of the repository [changes] is rewritten to a URL that
    contains both [/changes] and [/activities]; the file-change mapping
    runs first and erases the actions, and the three activities
    [COMMENTED], [APPROVED], [COMMENTED] come back as three bare update
    envelopes, not as two comments. *)
Theorem activities_after_changes :
  let url := transformUrl "/repositories/P/changes/pullrequests/5/comments" in
  let bare :=
    object
      [("update",
        object
          [("date", VUndef);
           ("author",
            object [("uuid", VStr "{undefined}");
                    ("display_name", VUndef);
                    ("account_id", VUndef)])])] in
  url = "/rest/api/1.0/projects/P/repos/changes/pull-requests/5/activities"
  ∧ includes url "/pull-requests/" = true
  ∧ includes url "/activities" = true
  ∧ List.filter commented
      [sample_activity "COMMENTED"; sample_activity "APPROVED";
       sample_activity "COMMENTED"]
    = [sample_activity "COMMENTED"; sample_activity "COMMENTED"]
  ∧ transformPaginatedResponse "https://git.example.com" url
      (page [sample_activity "COMMENTED"; sample_activity "APPROVED";
             sample_activity "COMMENTED"])
    = Ok (page [bare; bare; bare]).
Proof. split_and!; vm_compute; reflexivity. Qed.

(** The sample of the specification on the plain activities URL: two
    comments out of [COMMENTED, APPROVED, COMMENTED], and three log entries
    without a [comment] out of three other actions. *)
Example activities_comments :
  let out :=
    transformPaginatedResponse "https://git.example.com"
      "/rest/api/1.0/projects/P/repos/r/pull-requests/5/activities"
      (page [sample_activity "COMMENTED"; sample_activity "APPROVED";
             sample_activity "COMMENTED"]) in
  (r ← out; vs ← get r "values"; get vs "length") = Ok (VNum 2)
  ∧ (r ← out; vs ← get r "values"; c ← get_index vs 0; get c "type")
    = Ok (VStr "pullrequest_comment")
  ∧ (r ← out; vs ← get r "values"; c ← get_index vs 1; get c "type")
    = Ok (VStr "pullrequest_comment").
Proof. split_and!; vm_compute; reflexivity. Qed.

Example activities_log :
  let out :=
    transformPaginatedResponse "https://git.example.com"
      "/rest/api/1.0/projects/P/repos/r/pull-requests/5/activities"
      (page [sample_activity "APPROVED"; sample_activity "RESCOPED";
             sample_activity "UNAPPROVED"]) in
  let field (i : nat) (k : string) :=
    r ← out; vs ← get r "values"; e ← get_index vs i; Ok (has_field e k) in
  (r ← out; vs ← get r "values"; get vs "length") = Ok (VNum 3)
  ∧ field 0 "comment" = Ok false ∧ field 0 "approval" = Ok true
  ∧ field 1 "comment" = Ok false ∧ field 1 "approval" = Ok false
  ∧ field 2 "comment" = Ok false ∧ field 2 "approval" = Ok true.
Proof. split_and!; vm_compute; reflexivity. Qed.

(** ** Errors *)

(** The error mapping on a payload whose [errors] list has a first entry:
    the payload becomes [{ type: "error", error: { message, detail } }] and
    the failure is raised again. *)
Lemma transformError_first_entry
    (e r d : gmap string value) (first : value) (rest : list value) :
  e !! "response" = Some (VObj r) →
  r !! "data" = Some (VObj d) →
  d !! "errors" = Some (VArr (first :: rest)) →
  nullish first = false →
  transformError (VObj e)
  = Ok (Rejected
          (VObj
             (<["response" :=
                  VObj
                    (<["data" :=
                         object
                           [("type", VStr "error");
                            ("error",
                             object
                               [("message",
                                 or_val (get_opt first "message")
                                   (get_opt first "exceptionName"));
                                ("detail",
                                 or_val (get_opt first "context")
                                   (get_opt first "message"))])]]>
                       r)]>
                e))).
Proof.
  intros He Hr Hd Hfirst. unfold transformError, get3, get2.
  cbn [get mbind result_bind]. rewrite He. cbn [truthy get fmap result_fmap].
  rewrite Hr. cbn [truthy get mbind result_bind]. rewrite Hd.
  cbn [truthy get_index lookup mbind result_bind default].
  change ((first :: rest) !! 0) with (Some first). cbn [default].
  repeat (rewrite ?(get_ok first), ?or_else_Ok by done;
          cbn [mbind result_bind]).
  reflexivity.
Qed.

(** Without a truthy [errors] member the error is raised again as it is. *)
Lemma transformError_other (e : gmap string value) :
  truthy (get_opt (get_opt (get_opt (VObj e) "response") "data") "errors")
  = false →
  transformError (VObj e) = Ok (Rejected (VObj e)).
Proof.
  intros H. unfold transformError, get3, get2.
  rewrite (get_ok (VObj e)) by done. cbn [mbind result_bind].
  destruct (truthy (get_opt (VObj e) "response")) eqn:Hr; [|done].
  apply truthy_not_nullish in Hr.
  rewrite !(get_ok (get_opt (VObj e) "response")) by done.
  cbn [mbind result_bind fmap result_fmap].
  destruct (truthy (get_opt (get_opt (VObj e) "response") "data")) eqn:Hd;
    [|done].
  apply truthy_not_nullish in Hd.
  rewrite !(get_ok (get_opt (get_opt (VObj e) "response") "data")) by done.
  cbn [mbind result_bind]. by rewrite H.
Qed.

(** A call of [transformError] that returns never returns a fulfilled
    promise. *)
Lemma transformError_rejects (error : value) (p : promise) :
  transformError error = Ok p → ∃ reason, p = Rejected reason.
Proof.
  unfold transformError.
  destruct (get error "response") as [response|]; [|discriminate].
  cbn [mbind result_bind].
  destruct (if truthy response then _ else _) as [[]|]; cbn [mbind result_bind];
    [| intros [= <-]; eauto | discriminate].
  destruct (get3 _ _ _ _) as [errors|]; [|discriminate].
  cbn [mbind result_bind].
  destruct (truthy errors); [| intros [= <-]; eauto].
  repeat match goal with
         | |- context [?x ≫= _] =>
             destruct x; cbn [mbind result_bind]; [|discriminate]
         end.
  intros [= <-]. eauto.
Qed.

Example transformError_sample :
  transformError
    (object
       [("message", VStr "Request failed with status code 404");
        ("response",
         object
           [("status", VNum 404);
            ("data",
             object
               [("errors",
                 VArr [object [("message", VStr "X");
                               ("context", VStr "Y")]])])])])
  = Ok (Rejected
          (object
             [("message", VStr "Request failed with status code 404");
              ("response",
               object
                 [("status", VNum 404);
                  ("data",
                   object
                     [("type", VStr "error");
                      ("error", object [("message", VStr "X");
                                        ("detail", VStr "Y")])])])])).
Proof. vm_compute. reflexivity. Qed.

(** C4 on an empty [errors] list.  The list is truthy, its first entry is
    [undefined], and reading [message] from it throws a [TypeError]: the
    payload is not replaced and the failure that was to be raised again is
    lost to the [TypeError].  The same happens when the first entry is
    [null]. *)
Theorem transformError_empty_errors :
  let failure (errors : list value) :=
    object
      [("message", VStr "Request failed with status code 500");
       ("response",
        object [("status", VNum 500);
                ("data", object [("errors", VArr errors)])])] in
  transformError (failure []) = Throw TypeError
  ∧ transformError (failure [VNull]) = Throw TypeError
  ∧ (∀ reason, transformError (failure []) ≠ Ok (Rejected reason)).
Proof. split_and!; [vm_compute; reflexivity.. | intros reason; discriminate]. Qed.

(** * Further properties *)

(** ** The pull-request endpoints *)

Lemma ordinary_inv (s : string) :
  ordinary s = true →
  segment s = true ∧ no_slash s = true
  ∧ strip_prefix "pullrequests" s = None
  ∧ strip_prefix "diff" s = None
  ∧ strip_prefix "comments" s = None
  ∧ strip_prefix "activity" s = None
  ∧ strip_prefix "branching-model" s = None
  ∧ strip_prefix "diffstat" s = None
  ∧ String.eqb "pullrequests" s = false
  ∧ String.eqb "workspaces" s = false.
Proof.
  unfold ordinary, keywords. cbn [forallb]. intros H.
  apply andb_true_iff in H as [Hseg H].
  apply andb_true_iff in H as [H1 H]. apply andb_true_iff in H as [H2 H].
  apply andb_true_iff in H as [H3 H]. apply andb_true_iff in H as [H4 H].
  apply andb_true_iff in H as [H5 H]. apply andb_true_iff in H as [H6 _].
  apply negb_true_iff, starts_with_false in H1.
  apply negb_true_iff, starts_with_false in H2.
  apply negb_true_iff, starts_with_false in H3.
  apply negb_true_iff, starts_with_false in H4.
  apply negb_true_iff, starts_with_false in H5.
  apply negb_true_iff, starts_with_false in H6.
  split_and!; try done.
  - by apply segment_no_slash.
  - apply (strip_prefix_None_app "diff" "stat"), H2.
  - destruct (String.eqb_spec "pullrequests" s) as [<-|]; [discriminate | done].
  - destruct (String.eqb_spec "workspaces" s) as [<-|]; [discriminate | done].
Qed.

Lemma ordinary_plain (s : string) : ordinary s = true → plain s = true.
Proof.
  intros H.
  destruct (ordinary_inv s H) as (Hseg & _ & H1 & _ & _ & _ & H5 & H6 & _).
  unfold plain, reserved, starts_with. cbn [forallb].
  by rewrite Hseg, H1, H5, H6.
Qed.

Lemma includes_join_exact (w : string) (segs : list string) :
  no_slash w = true → forallb no_slash segs = true →
  includes (join segs) ("/" +:+ w +:+ "/")
  = match find_exact w segs with Some _ => true | None => false end.
Proof.
  intros Hw Hsegs. unfold includes. rewrite search_join_exact by done.
  by destruct (find_exact w segs) as [[[??]?]|].
Qed.

(** Rewrite with what is known of the names in the goal. *)
Ltac use_names :=
  repeat match goal with
         | H : no_slash ?s = true |- context [no_slash ?s] => rewrite H
         | H : strip_prefix ?w ?s = None |- context [strip_prefix ?w ?s] =>
             rewrite H
         | H : String.eqb ?w ?s = false |- context [String.eqb ?w ?s] =>
             rewrite H
         end.

Ltac names_facts H :=
  let Hseg := fresh "Hseg" in
  let Hns := fresh "Hns" in
  let Hpr := fresh "Hpr" in
  let Hd := fresh "Hd" in
  let Hc := fresh "Hc" in
  let Ha := fresh "Ha" in
  let Hbm := fresh "Hbm" in
  let Hds := fresh "Hds" in
  let Heq := fresh "Heq" in
  let Hw := fresh "Hw" in
  destruct (ordinary_inv _ H)
    as (Hseg & Hns & Hpr & Hd & Hc & Ha & Hbm & Hds & Heq & Hw).

Ltac segs_ok := cbn [forallb]; use_names; reflexivity.

(** [includes (join segs) "/w"] by inspection of the segments. *)
Ltac includes_by_segments w :=
  rewrite (includes_join w) by (done || segs_ok);
  cbn [existsb]; unfold starts_with; use_names.

Ltac includes_exact_by_segments w :=
  rewrite (includes_join_exact w) by (done || segs_ok);
  cbn [find_exact]; use_names.

Section PullRequestEndpoints.
Variables ws repo id : string.
Hypothesis Hws : ordinary ws = true.
Hypothesis Hrepo : ordinary repo = true.
Hypothesis Hid : ordinary id = true.

Lemma transformUrl_collection :
  transformUrl (join ["repositories"; ws; repo; "pullrequests"])
  = join ["rest"; "api"; "1.0"; "projects"; ws; "repos"; repo;
          "pull-requests"].
Proof using Hws Hrepo.
  names_facts Hws. names_facts Hrepo.
  unfold transformUrl.
  rewrite test_repo_list_deep, test_repo_single_deep by done.
  change "/diffstat" with ("/" +:+ "diffstat").
  change "/diff" with ("/" +:+ "diff").
  change "/pullrequests/" with ("/" +:+ "pullrequests" +:+ "/").
  change "/pullrequests" with ("/" +:+ "pullrequests").
  includes_by_segments "diffstat".
  includes_by_segments "diff".
  includes_exact_by_segments "pullrequests".
  includes_by_segments "pullrequests".
  cbn [orb andb].
  rewrite (replace_join_prefix "pullrequests" "pull-requests" _ _
             ["repositories"; ws; repo] [] "");
    [| done | segs_ok | cbn [find_prefix]; by use_names | done].
  cbn [app]. by rewrite replace_repo_prefix.
Qed.

Lemma transformUrl_element :
  transformUrl (join ["repositories"; ws; repo; "pullrequests"; id])
  = join ["rest"; "api"; "1.0"; "projects"; ws; "repos"; repo;
          "pull-requests"; id].
Proof using Hws Hrepo Hid.
  names_facts Hws. names_facts Hrepo. names_facts Hid.
  unfold transformUrl.
  rewrite test_repo_list_deep, test_repo_single_deep by done.
  change "/diffstat" with ("/" +:+ "diffstat").
  change "/diff" with ("/" +:+ "diff").
  change "/comments" with ("/" +:+ "comments").
  change "/activity" with ("/" +:+ "activity").
  change "/pullrequests/" with ("/" +:+ "pullrequests" +:+ "/").
  change "/pullrequests" with ("/" +:+ "pullrequests").
  includes_by_segments "diffstat".
  includes_by_segments "diff".
  includes_by_segments "comments".
  includes_by_segments "activity".
  includes_by_segments "pullrequests".
  cbn [orb andb]. rewrite !andb_false_r.
  rewrite (replace_join_prefix "pullrequests" "pull-requests" _ _
             ["repositories"; ws; repo] [id] "");
    [| done | segs_ok | cbn [find_prefix]; by use_names | done].
  cbn [app]. by rewrite replace_repo_prefix.
Qed.

Lemma transformUrl_diff :
  transformUrl (join ["repositories"; ws; repo; "pullrequests"; id; "diff"])
  = join ["rest"; "api"; "1.0"; "projects"; ws; "repos"; repo;
          "pull-requests"; id; "diff"].
Proof using Hws Hrepo Hid.
  names_facts Hws. names_facts Hrepo. names_facts Hid.
  unfold transformUrl.
  rewrite test_repo_list_deep, test_repo_single_deep by done.
  change "/diffstat" with ("/" +:+ "diffstat").
  change "/diff" with ("/" +:+ "diff").
  change "/pullrequests/" with ("/" +:+ "pullrequests" +:+ "/").
  includes_by_segments "diffstat".
  includes_by_segments "diff".
  includes_exact_by_segments "pullrequests".
  cbn [orb andb].
  rewrite (replace_join_exact "pullrequests" "pull-requests" _ _
             ["repositories"; ws; repo] ["diff"] id);
    [| done | segs_ok | cbn [find_exact]; by use_names | done].
  cbn [app]. by rewrite replace_repo_prefix.
Qed.

Lemma transformUrl_comments_endpoint :
  transformUrl
    (join ["repositories"; ws; repo; "pullrequests"; id; "comments"])
  = join ["rest"; "api"; "1.0"; "projects"; ws; "repos"; repo;
          "pull-requests"; id; "activities"].
Proof using Hws Hrepo Hid.
  names_facts Hws. names_facts Hrepo. names_facts Hid.
  unfold transformUrl.
  rewrite test_repo_list_deep, test_repo_single_deep by done.
  change "/diffstat" with ("/" +:+ "diffstat").
  change "/diff" with ("/" +:+ "diff").
  change "/comments" with ("/" +:+ "comments").
  change "/pullrequests/" with ("/" +:+ "pullrequests" +:+ "/").
  includes_by_segments "diffstat".
  includes_by_segments "diff".
  includes_by_segments "comments".
  includes_exact_by_segments "pullrequests".
  cbn [orb andb].
  rewrite (replace_join_exact "pullrequests" "pull-requests" _ _
             ["repositories"; ws; repo] ["comments"] id);
    [| done | segs_ok | cbn [find_exact]; by use_names | done].
  cbn [app]. rewrite replace_repo_prefix by done.
  rewrite (replace_join_prefix "comments" "activities" _ _
             ["rest"; "api"; "1.0"; "projects"; ws; "repos"; repo;
              "pull-requests"; id] [] "");
    [done | done | segs_ok | cbn [find_prefix]; by use_names | done].
Qed.

Lemma transformUrl_activity_endpoint :
  transformUrl
    (join ["repositories"; ws; repo; "pullrequests"; id; "activity"])
  = join ["rest"; "api"; "1.0"; "projects"; ws; "repos"; repo;
          "pull-requests"; id; "activities"].
Proof using Hws Hrepo Hid.
  names_facts Hws. names_facts Hrepo. names_facts Hid.
  unfold transformUrl.
  rewrite test_repo_list_deep, test_repo_single_deep by done.
  change "/diffstat" with ("/" +:+ "diffstat").
  change "/diff" with ("/" +:+ "diff").
  change "/comments" with ("/" +:+ "comments").
  change "/activity" with ("/" +:+ "activity").
  change "/pullrequests/" with ("/" +:+ "pullrequests" +:+ "/").
  includes_by_segments "diffstat".
  includes_by_segments "diff".
  includes_by_segments "comments".
  includes_by_segments "activity".
  includes_exact_by_segments "pullrequests".
  cbn [orb andb].
  rewrite (replace_join_exact "pullrequests" "pull-requests" _ _
             ["repositories"; ws; repo] ["activity"] id);
    [| done | segs_ok | cbn [find_exact]; by use_names | done].
  cbn [app]. rewrite replace_repo_prefix by done.
  rewrite (replace_join_prefix "activity" "activities" _ _
             ["rest"; "api"; "1.0"; "projects"; ws; "repos"; repo;
              "pull-requests"; id] [] "");
    [done | done | segs_ok | cbn [find_prefix]; by use_names | done].
Qed.

End PullRequestEndpoints.

Lemma join_last (segs : list string) (s : string) :
  join (segs ++ [s]) = join segs +:+ "/" +:+ s.
Proof. rewrite join_app. cbn [join]. by rewrite append_empty_r. Qed.

(** X1. For a workspace, a repository and a pull request whose names begin
    with no keyword of the rewriter, the pull-request endpoints go to the
    pull requests of the repository in the Server tree and keep their
    sub-resource: the collection, one pull request and its [diff] as they
    are, [diffstat] as [changes]. *)
Theorem transformUrl_pull_request_endpoints (ws repo id : string) :
  ordinary ws = true → ordinary repo = true → ordinary id = true →
  let cloud := "/repositories/" +:+ ws +:+ "/" +:+ repo +:+ "/pullrequests" in
  let server :=
    "/rest/api/1.0/projects/" +:+ ws +:+ "/repos/" +:+ repo
      +:+ "/pull-requests" in
  transformUrl cloud = server
  ∧ transformUrl (cloud +:+ "/" +:+ id) = server +:+ "/" +:+ id
  ∧ transformUrl (cloud +:+ "/" +:+ id +:+ "/diff")
    = server +:+ "/" +:+ id +:+ "/diff"
  ∧ transformUrl (cloud +:+ "/" +:+ id +:+ "/diffstat")
    = server +:+ "/" +:+ id +:+ "/changes".
Proof.
  intros Hws Hrepo Hid cloud server.
  assert (Hcloud : cloud = join ["repositories"; ws; repo; "pullrequests"])
    by done.
  assert (Hserver : server
                    = join ["rest"; "api"; "1.0"; "projects"; ws; "repos";
                            repo; "pull-requests"]) by done.
  rewrite Hcloud, Hserver. split_and!.
  - by apply transformUrl_collection.
  - rewrite <-!join_last. cbn [app]. by apply transformUrl_element.
  - change ("/" +:+ id +:+ "/diff") with (join [id; "diff"]).
    rewrite <-!join_app. cbn [app]. by apply transformUrl_diff.
  - change ("/" +:+ id +:+ "/diffstat") with (join [id; "diffstat"]).
    change ("/" +:+ id +:+ "/changes") with (join [id; "changes"]).
    rewrite <-!join_app. cbn [app].
    change (join ["repositories"; ws; repo; "pullrequests"; id; "diffstat"])
      with ("/repositories/" +:+ ws +:+ "/" +:+ repo +:+ "/pullrequests/"
              +:+ id +:+ "/diffstat").
    by rewrite transformUrl_diffstat by by apply ordinary_plain.
Qed.

Lemma transformUrl_pull_request_endpoints_witness :
  transformUrl ("/repositories/" +:+ "team" +:+ "/" +:+ "site"
                  +:+ "/pullrequests")
  = "/rest/api/1.0/projects/" +:+ "team" +:+ "/repos/" +:+ "site"
      +:+ "/pull-requests".
Proof.
  apply (transformUrl_pull_request_endpoints "team" "site" "5"); reflexivity.
Defined.

(** X2. For such names the comments endpoint and the activity endpoint of
    a pull request are both rewritten to its [activities] in the Server
    tree: the two requests reach the backend, and the response hook, under
    one and the same URL. *)
Theorem transformUrl_comments_and_activity (ws repo id : string) :
  ordinary ws = true → ordinary repo = true → ordinary id = true →
  let pr :=
    "/repositories/" +:+ ws +:+ "/" +:+ repo +:+ "/pullrequests/" +:+ id in
  let activities :=
    "/rest/api/1.0/projects/" +:+ ws +:+ "/repos/" +:+ repo
      +:+ "/pull-requests/" +:+ id +:+ "/activities" in
  transformUrl (pr +:+ "/comments") = activities
  ∧ transformUrl (pr +:+ "/activity") = activities
  ∧ transformUrl (pr +:+ "/comments") = transformUrl (pr +:+ "/activity").
Proof.
  intros Hws Hrepo Hid pr activities.
  assert (H1 : transformUrl (pr +:+ "/comments") = activities).
  { unfold pr. rewrite !append_assoc.
    by apply transformUrl_comments_endpoint. }
  assert (H2 : transformUrl (pr +:+ "/activity") = activities).
  { unfold pr. rewrite !append_assoc.
    by apply transformUrl_activity_endpoint. }
  split_and!; [done | done | congruence].
Qed.

Lemma transformUrl_comments_and_activity_witness :
  transformUrl (("/repositories/" +:+ "team" +:+ "/" +:+ "site"
                   +:+ "/pullrequests/" +:+ "5") +:+ "/comments")
  = "/rest/api/1.0/projects/" +:+ "team" +:+ "/repos/" +:+ "site"
      +:+ "/pull-requests/" +:+ "5" +:+ "/activities".
Proof.
  apply (transformUrl_comments_and_activity "team" "site" "5"); reflexivity.
Defined.

(** ** Workspaces and branching models *)

Lemma exec_workspace (url : string) (m : captures) :
  exec re_workspace url = Some m ↔
  ∃ ws, segment ws = true ∧ url = "/workspaces/" +:+ ws
        ∧ m = Captures "" url [ws] "".
Proof.
  unfold exec, re_workspace. cbn [re_bol re_body re_eol match_pieces].
  split.
  - destruct (strip_prefix _ url) as [rest|] eqn:E; [|discriminate].
    apply strip_prefix_Some in E as ->.
    destruct (run_seg _ rest) as [[[mt gs] r]|] eqn:E; [|discriminate].
    apply run_seg_inv in E as (g & r' & -> & Hg & Hk).
    destruct r'; [|discriminate]. injection Hk as <- <- <-.
    intros [= <-]. exists g. by rewrite !append_empty_r.
  - intros (ws & Hws & -> & ->).
    rewrite strip_prefix_app.
    rewrite <-(append_empty_r ws) at 1.
    erewrite run_seg_boundary; [|done|by left|done].
    by rewrite !append_empty_r.
Qed.

Lemma test_workspace_deep (a b : string) (rest : list string) :
  test re_workspace (join ("workspaces" :: a :: b :: rest)) = false.
Proof.
  unfold test. destruct (exec re_workspace _) as [m|] eqn:E; [|done].
  apply exec_workspace in E as (ws & Hws & E & _).
  apply (f_equal (strip_prefix "/workspaces/")) in E.
  rewrite strip_prefix_app in E.
  change (join ("workspaces" :: a :: b :: rest))
    with ("/workspaces/" +:+ a +:+ "/" +:+ b +:+ join rest) in E.
  rewrite strip_prefix_app in E. injection E as <-.
  apply segment_no_slash in Hws. rewrite no_slash_app in Hws.
  apply andb_true_iff in Hws as [_ Hws]. done.
Qed.

Lemma test_not_repositories (re : regex) (segs : list string) :
  re = re_repo_list ∨ re = re_repo_single →
  test re (join ("workspaces" :: segs)) = false.
Proof. by intros [->| ->]. Qed.

(** X3. [/workspaces] is rewritten to the list of projects and, for a
    workspace whose name begins with no keyword, [/workspaces/{ws}] to the
    project [{ws}]; the rule is anchored, and a path one segment deeper,
    such as the projects of a workspace, is left in the Cloud tree. *)
Theorem transformUrl_workspaces :
  transformUrl "/workspaces" = "/rest/api/1.0/projects"
  ∧ (∀ ws, ordinary ws = true →
           transformUrl ("/workspaces/" +:+ ws)
           = "/rest/api/1.0/projects/" +:+ ws)
  ∧ (∀ ws sub, ordinary ws = true → ordinary sub = true →
               transformUrl ("/workspaces/" +:+ ws +:+ "/" +:+ sub)
               = "/workspaces/" +:+ ws +:+ "/" +:+ sub).
Proof.
  split_and!; [done | |].
  - intros ws Hws. names_facts Hws.
    replace ("/workspaces/" +:+ ws) with (join ["workspaces"; ws])
      by (cbn [join]; by rewrite (append_empty_r ws)).
    unfold transformUrl.
    rewrite !test_not_repositories by auto.
    change "/diffstat" with ("/" +:+ "diffstat").
    change "/diff" with ("/" +:+ "diff").
    change "/pullrequests/" with ("/" +:+ "pullrequests" +:+ "/").
    change "/pullrequests" with ("/" +:+ "pullrequests").
    includes_by_segments "diffstat".
    includes_by_segments "diff".
    includes_exact_by_segments "pullrequests".
    includes_by_segments "pullrequests".
    cbn [orb andb].
    replace (join ["workspaces"; ws]) with ("/workspaces/" +:+ ws)
      by (cbn [join]; by rewrite (append_empty_r ws)).
    assert (String.eqb ("/workspaces/" +:+ ws) "/workspaces" = false) as ->
      by done.
    unfold test, RegExp.replace.
    erewrite (proj2 (exec_workspace _ _)); [|eauto].
    simpl. by rewrite !append_empty_r.
  - intros ws sub Hws Hsub. names_facts Hws. names_facts Hsub.
    replace ("/workspaces/" +:+ ws +:+ "/" +:+ sub)
      with (join ["workspaces"; ws; sub])
      by (cbn [join]; by rewrite (append_empty_r sub)).
    unfold transformUrl.
    rewrite !test_not_repositories by auto.
    change "/diffstat" with ("/" +:+ "diffstat").
    change "/diff" with ("/" +:+ "diff").
    change "/pullrequests/" with ("/" +:+ "pullrequests" +:+ "/").
    change "/pullrequests" with ("/" +:+ "pullrequests").
    change "/branching-model" with ("/" +:+ "branching-model").
    includes_by_segments "diffstat".
    includes_by_segments "diff".
    includes_exact_by_segments "pullrequests".
    includes_by_segments "pullrequests".
    includes_by_segments "branching-model".
    cbn [orb andb].
    rewrite test_workspace_deep.
    assert (String.eqb (join ["workspaces"; ws; sub]) "/workspaces" = false)
      as -> by done.
    done.
Qed.

Lemma transformUrl_workspaces_witness :
  transformUrl ("/workspaces/" +:+ "team") = "/rest/api/1.0/projects/" +:+ "team"
  ∧ transformUrl ("/workspaces/" +:+ "team" +:+ "/" +:+ "projects")
    = "/workspaces/" +:+ "team" +:+ "/" +:+ "projects".
Proof.
  destruct transformUrl_workspaces as (_ & H1 & H2).
  split; [apply H1 | apply H2]; reflexivity.
Defined.

(** X4. The branching model of a project, for names that begin with no
    keyword, is rewritten to the [restrictions] of the project in the
    Server tree.  The branching model of a repository only has its last
    segment renamed: the rule does not rewrite the [/repositories/] prefix,
    and the path stays in the Cloud tree. *)
Theorem transformUrl_branching_model :
  (∀ ws key, ordinary ws = true → ordinary key = true →
     transformUrl ("/workspaces/" +:+ ws +:+ "/projects/" +:+ key
                     +:+ "/branching-model")
     = "/rest/api/1.0/projects/" +:+ ws +:+ "/projects/" +:+ key
         +:+ "/restrictions")
  ∧ (∀ ws repo, ordinary ws = true → ordinary repo = true →
       transformUrl ("/repositories/" +:+ ws +:+ "/" +:+ repo
                       +:+ "/branching-model")
       = "/repositories/" +:+ ws +:+ "/" +:+ repo +:+ "/restrictions").
Proof.
  split.
  - intros ws key Hws Hkey. names_facts Hws. names_facts Hkey.
    change ("/workspaces/" +:+ ws +:+ "/projects/" +:+ key
              +:+ "/branching-model")
      with (join ["workspaces"; ws; "projects"; key; "branching-model"]).
    unfold transformUrl.
    rewrite !test_not_repositories by auto.
    change "/diffstat" with ("/" +:+ "diffstat").
    change "/diff" with ("/" +:+ "diff").
    change "/pullrequests/" with ("/" +:+ "pullrequests" +:+ "/").
    change "/pullrequests" with ("/" +:+ "pullrequests").
    change "/branching-model" with ("/" +:+ "branching-model").
    change "/workspaces/" with ("/" +:+ "workspaces" +:+ "/").
    includes_by_segments "diffstat".
    includes_by_segments "diff".
    includes_exact_by_segments "pullrequests".
    includes_by_segments "pullrequests".
    includes_by_segments "branching-model".
    cbn [orb andb].
    rewrite test_workspace_deep.
    assert (String.eqb
              (join ["workspaces"; ws; "projects"; key; "branching-model"])
              "/workspaces" = false) as -> by done.
    rewrite (replace_join_exact "workspaces" "rest/api/1.0/projects" _ _
               [] ["projects"; key; "branching-model"] ws);
      [| done | segs_ok | done | done].
    change (join ([] ++ ["rest/api/1.0/projects"; ws; "projects"; key;
                         "branching-model"]))
      with (join ["rest"; "api"; "1.0"; "projects"; ws; "projects"; key;
                  "branching-model"]).
    rewrite (replace_join_prefix "branching-model" "restrictions" _ _
               ["rest"; "api"; "1.0"; "projects"; ws; "projects"; key] [] "");
      [done | done | segs_ok | cbn [find_prefix]; by use_names | done].
  - intros ws repo Hws Hrepo. names_facts Hws. names_facts Hrepo.
    change ("/repositories/" +:+ ws +:+ "/" +:+ repo +:+ "/branching-model")
      with (join ["repositories"; ws; repo; "branching-model"]).
    unfold transformUrl.
    rewrite test_repo_list_deep, test_repo_single_deep by done.
    change "/diffstat" with ("/" +:+ "diffstat").
    change "/diff" with ("/" +:+ "diff").
    change "/pullrequests/" with ("/" +:+ "pullrequests" +:+ "/").
    change "/pullrequests" with ("/" +:+ "pullrequests").
    change "/branching-model" with ("/" +:+ "branching-model").
    includes_by_segments "diffstat".
    includes_by_segments "diff".
    includes_exact_by_segments "pullrequests".
    includes_by_segments "pullrequests".
    includes_by_segments "branching-model".
    cbn [orb andb].
    assert (String.eqb (join ["repositories"; ws; repo; "branching-model"])
              "/workspaces" = false) as -> by done.
    unfold re_workspace. rewrite test_bol_lit by done.
    rewrite (replace_absent _ "/workspaces/").
    + rewrite (replace_join_prefix "branching-model" "restrictions" _ _
                 ["repositories"; ws; repo] [] "");
        [done | done | segs_ok | cbn [find_prefix]; by use_names | done].
    + change "/workspaces/" with ("/" +:+ "workspaces" +:+ "/").
      includes_exact_by_segments "workspaces". done.
Qed.

Lemma transformUrl_branching_model_witness :
  transformUrl ("/repositories/" +:+ "team" +:+ "/" +:+ "site"
                  +:+ "/branching-model")
  = "/repositories/" +:+ "team" +:+ "/" +:+ "site" +:+ "/restrictions".
Proof.
  destruct transformUrl_branching_model as (_ & H).
  apply H; reflexivity.
Defined.

(** ** The request hook *)

(** A parameter map without [pagelen] and without a [SUPERSEDED] state is
    left as it is. *)
Lemma transformParams_fixed (m : gmap string value) :
  m !! "pagelen" = None →
  m !! "state" ≠ Some (VStr "SUPERSEDED") →
  transformParams (VObj m) = m.
Proof.
  intros Hp Hs. unfold transformParams. cbn [spread]. rewrite Hp.
  destruct (m !! "state") as [st|] eqn:E; [|done].
  destruct (is_str st "SUPERSEDED") eqn:Es.
  - apply is_str_true in Es. congruence.
  - by rewrite andb_false_r.
Qed.

Lemma transformParams_pagelen (params : value) :
  transformParams params !! "pagelen" = None.
Proof.
  unfold transformParams.
  set (q := match spread params !! "pagelen" with
            | Some pagelen =>
                delete "pagelen" (<["limit" := pagelen]> (spread params))
            | None => spread params
            end).
  assert (Hq : q !! "pagelen" = None).
  { subst q. destruct (spread params !! "pagelen") eqn:E; [|done].
    by rewrite lookup_delete_eq. }
  destruct (q !! "state") as [st|]; [|done].
  destruct (_ && _); [|done]. by rewrite lookup_insert_ne.
Qed.

Lemma transformParams_state (params : value) :
  transformParams params !! "state" ≠ Some (VStr "SUPERSEDED").
Proof.
  unfold transformParams.
  set (q := match spread params !! "pagelen" with
            | Some pagelen =>
                delete "pagelen" (<["limit" := pagelen]> (spread params))
            | None => spread params
            end).
  destruct (q !! "state") as [st|] eqn:E; [|by rewrite E].
  destruct (is_str st "SUPERSEDED") eqn:Es.
  - apply is_str_true in Es as ->. simpl. by rewrite lookup_insert_eq.
  - rewrite andb_false_r, E. apply is_str_false in Es. congruence.
Qed.

(** X5. [transformParams] is idempotent: its result never has a [pagelen]
    parameter nor the state [SUPERSEDED], and a second pass over the result
    changes nothing. *)
Theorem transformParams_idempotent (params : value) :
  let t := transformParams params in
  t !! "pagelen" = None
  ∧ t !! "state" ≠ Some (VStr "SUPERSEDED")
  ∧ transformParams (VObj t) = t.
Proof.
  intros t. subst t. split_and!.
  - apply transformParams_pagelen.
  - apply transformParams_state.
  - apply transformParams_fixed;
      [apply transformParams_pagelen | apply transformParams_state].
Qed.

(** A body without a source branch is returned as it is, on every path. *)
Lemma transformRequestBody_no_source (url : string) (data : value) :
  nullish data = false →
  branch_absent data "sourceBranch" "source" →
  transformRequestBody url data = Ok data.
Proof.
  intros Hd Habs. unfold transformRequestBody.
  destruct (includes url "/pull-requests"); [|done].
  repeat (rewrite (get_ok data) by done; cbn [mbind result_bind]).
  destruct (branch_absent_or_else _ _ _ Habs) as (v & -> & Hv).
  cbn [mbind result_bind].
  repeat (rewrite (get_ok data) by done; cbn [mbind result_bind]).
  rewrite or_else_Ok. cbn [mbind result_bind]. by rewrite Hv.
Qed.

(** The creation body, in full. *)
Lemma transformRequestBody_create
    (url : string) (data : value) (source target : string)
    (reviewers : list value) :
  includes url "/pull-requests" = true →
  nullish data = false →
  branch_given data "sourceBranch" "source" source →
  branch_given data "targetBranch" "destination" target
  ∨ (branch_absent data "targetBranch" "destination" ∧ target = "master") →
  reviewers_of data reviewers →
  transformRequestBody url data
  = Ok (object
          [("title", get_opt data "title");
           ("description", or_val (get_opt data "description") (VStr ""));
           ("state", VStr "OPEN");
           ("open", VBool true);
           ("closed", VBool false);
           ("fromRef",
            ref source (match_group1 re_repos url)
              (match_group1 re_projects url));
           ("toRef",
            ref target (match_group1 re_repos url)
              (match_group1 re_projects url));
           ("reviewers",
            VArr ((λ name, object [("user", object [("name", name)])])
                    <$> reviewers))]).
Proof.
  intros Hurl Hd Hsrc Htgt Hrev.
  unfold transformRequestBody. rewrite Hurl.
  repeat (rewrite (get_ok data) by done; cbn [mbind result_bind]).
  rewrite (branch_given_or_else _ _ _ _ Hsrc).
  cbn [mbind result_bind].
  repeat (rewrite (get_ok data) by done; cbn [mbind result_bind]).
  assert (Hts : truthy (VStr source) = true).
  { destruct Hsrc as [Hne _]. simpl.
    by rewrite (proj2 (String.eqb_neq source "")). }
  rewrite Hts.
  assert (∃ nested,
    or_else (get_opt data "targetBranch")
      (Ok (get_opt (get_opt (get_opt data "destination") "branch") "name"))
    = Ok nested
    ∧ to_string (or_val nested (VStr "master")) = Ok target)
    as (nested & -> & Hto).
  { destruct Htgt as [Htgt|[Habs ->]].
    - rewrite (branch_given_or_else _ _ _ _ Htgt).
      eexists. split; [done |]. destruct Htgt as [Hne _].
      unfold or_val. simpl.
      by rewrite (proj2 (String.eqb_neq target "")).
    - destruct (branch_absent_or_else _ _ _ Habs) as (v & -> & Hv).
      eexists. split; [done |]. unfold or_val. by rewrite Hv. }
  cbn [mbind result_bind to_string].
  rewrite Hto. cbn [mbind result_bind].
  destruct Hrev as [->|[Hnull ->]].
  - unfold call_map_opt. cbn [nullish call_map].
    rewrite mapM_Ok. reflexivity.
  - unfold call_map_opt. rewrite Hnull. cbn [mbind result_bind].
    unfold or_val.
    assert (truthy VUndef = false) as -> by done. reflexivity.
Qed.

(** X6. A body that gives no source branch, flat or nested, is returned as
    it is on every path, pull-request paths included: only creation bodies
    are translated.  A textual body is such a body. *)
Theorem transformRequestBody_without_source :
  (∀ url data,
     nullish data = false →
     branch_absent data "sourceBranch" "source" →
     transformRequestBody url data = Ok data)
  ∧ (∀ url text, transformRequestBody url (VStr text) = Ok (VStr text)).
Proof.
  split.
  - apply transformRequestBody_no_source.
  - intros url text. apply transformRequestBody_no_source; [done |].
    split; reflexivity.
Qed.

Lemma transformRequestBody_without_source_witness :
  let data :=
    object [("title", VStr "New title");
            ("destination",
             object [("branch", object [("name", VStr "main")])])] in
  transformRequestBody
    "/rest/api/1.0/projects/P/repos/r/pull-requests/5" data
  = Ok data.
Proof.
  intros data.
  destruct transformRequestBody_without_source as (H & _).
  apply H; [reflexivity | split; reflexivity].
Defined.

(** X7. The creation body has exactly eight fields: the title is copied,
    the description defaults to the empty string, [state], [open] and
    [closed] are [OPEN], [true] and [false], and beside [fromRef], [toRef]
    and [reviewers] nothing else is kept of the body that was given. *)
Theorem transformRequestBody_created_fields
    (url : string) (data : value) (source target : string)
    (reviewers : list value) :
  includes url "/pull-requests" = true →
  nullish data = false →
  branch_given data "sourceBranch" "source" source →
  branch_given data "targetBranch" "destination" target
  ∨ (branch_absent data "targetBranch" "destination" ∧ target = "master") →
  reviewers_of data reviewers →
  ∃ body,
    transformRequestBody url data = Ok (VObj body)
    ∧ body !! "title" = Some (get_opt data "title")
    ∧ body !! "description"
      = Some (or_val (get_opt data "description") (VStr ""))
    ∧ body !! "state" = Some (VStr "OPEN")
    ∧ body !! "open" = Some (VBool true)
    ∧ body !! "closed" = Some (VBool false)
    ∧ (∀ k, body !! k ≠ None →
            k ∈ ["title"; "description"; "state"; "open"; "closed";
                 "fromRef"; "toRef"; "reviewers"]).
Proof.
  intros Hurl Hd Hsrc Htgt Hrev.
  rewrite (transformRequestBody_create url data source target reviewers)
    by done.
  unfold object at 1. eexists. split; [reflexivity |].
  split_and!; try reflexivity.
  intros k Hk. cbn [list_to_map foldr uncurry fst snd] in Hk.
  repeat match type of Hk with
         | context [<[?j := _]> _] =>
             destruct (decide (k = j)) as [->|];
             [clear; repeat constructor
             | rewrite lookup_insert_ne in Hk by done]
         end.
  by rewrite lookup_empty in Hk.
Qed.

Lemma transformRequestBody_created_fields_witness :
  let data :=
    object [("title", VStr "Fix");
            ("close_source_branch", VBool true);
            ("source",
             object [("branch", object [("name", VStr "feature")])])] in
  ∃ body,
    transformRequestBody
      "/rest/api/1.0/projects/P/repos/r/pull-requests" data
    = Ok (VObj body)
    ∧ body !! "title" = Some (VStr "Fix")
    ∧ body !! "description" = Some (VStr "")
    ∧ body !! "close_source_branch" = None.
Proof.
  intros data.
  destruct (transformRequestBody_created_fields
              "/rest/api/1.0/projects/P/repos/r/pull-requests" data
              "feature" "master" [])
    as (body & Hb & Ht & Hdesc & _ & _ & _ & Hkeys).
  - reflexivity.
  - reflexivity.
  - split; [discriminate |]. right. split; reflexivity.
  - right. split; [split; reflexivity | reflexivity].
  - right. split; reflexivity.
  - exists body. split_and!; [exact Hb | exact Ht | exact Hdesc |].
    destruct (body !! "close_source_branch") eqn:E; [|reflexivity].
    exfalso.
    assert (Hin : "close_source_branch"
                  ∈ ["title"; "description"; "state"; "open"; "closed";
                     "fromRef"; "toRef"; "reviewers"])
      by (apply Hkeys; by rewrite E).
    repeat (apply elem_of_cons in Hin as [Hin|Hin]; [discriminate |]).
    by apply elem_of_nil in Hin.
Defined.

(** X8. When a creation body names its reviewers by something that is
    neither absent nor a list (a single name, say), building the creation
    body fails with a [TypeError]. *)
Theorem transformRequestBody_reviewers_not_list
    (url : string) (data : value) (source : string) :
  includes url "/pull-requests" = true →
  nullish data = false →
  branch_given data "sourceBranch" "source" source →
  nullish (get_opt data "reviewers") = false →
  (∀ names, get_opt data "reviewers" ≠ VArr names) →
  transformRequestBody url data = Throw TypeError.
Proof.
  intros Hurl Hd Hsrc Hnull Hlist.
  unfold transformRequestBody. rewrite Hurl.
  repeat (rewrite (get_ok data) by done; cbn [mbind result_bind]).
  rewrite (branch_given_or_else _ _ _ _ Hsrc).
  cbn [mbind result_bind].
  repeat (rewrite (get_ok data) by done; cbn [mbind result_bind]).
  assert (Hts : truthy (VStr source) = true).
  { destruct Hsrc as [Hne _]. simpl.
    by rewrite (proj2 (String.eqb_neq source "")). }
  rewrite Hts, or_else_Ok. cbn [mbind result_bind to_string].
  destruct (to_string _) as [to|[]]; [|done]. cbn [mbind result_bind].
  unfold call_map_opt. rewrite Hnull.
  destruct (get_opt data "reviewers") as [| | | | |names| |]; try done.
  by destruct (Hlist names).
Qed.

Lemma transformRequestBody_reviewers_not_list_witness :
  transformRequestBody "/rest/api/1.0/projects/P/repos/r/pull-requests"
    (object [("title", VStr "Fix");
             ("sourceBranch", VStr "feature");
             ("reviewers", VStr "ann")])
  = Throw TypeError.
Proof.
  apply (transformRequestBody_reviewers_not_list _ _ "feature").
  - reflexivity.
  - reflexivity.
  - split; [discriminate |]. left. reflexivity.
  - reflexivity.
  - intros names. discriminate.
Defined.

Lemma branch_given_source_truthy (data : value) (source : string) :
  branch_given data "sourceBranch" "source" source →
  truthy data = true ∧ nullish data = false.
Proof.
  intros [_ [H|[_ H]]]; destruct data; try done.
Qed.

Lemma includes_pull_requests_collection (key slug : string) :
  no_slash key = true → no_slash slug = true →
  includes
    (join ["rest"; "api"; "1.0"; "projects"; key; "repos"; slug;
           "pull-requests"])
    "/pull-requests" = true.
Proof.
  intros Hkey Hslug.
  change "/pull-requests" with ("/" +:+ "pull-requests").
  rewrite includes_join; [| done | cbn [forallb]; by rewrite Hkey, Hslug].
  cbn [existsb].
  assert (starts_with "pull-requests" "pull-requests" = true) as -> by done.
  by rewrite !orb_true_r.
Qed.

(** X9. A [post] or [put] of a creation body to
    [/repositories/{ws}/{repo}/pullrequests] leaves the request hook with
    the Server path, the Cloud path recorded as the original one, and a body
    whose two references name the repository [{repo}] of the project
    [{ws}]: the body is built from the rewritten path.  The names begin
    with no keyword and the workspace is not called [repos]. *)
Theorem transformRequest_create_pull_request
    (ws repo method : string) (params data : value)
    (source target : string) (reviewers : list value) :
  ordinary ws = true → ordinary repo = true → ws ≠ "repos" →
  method = "post" ∨ method = "put" →
  branch_given data "sourceBranch" "source" source →
  branch_given data "targetBranch" "destination" target
  ∨ (branch_absent data "targetBranch" "destination" ∧ target = "master") →
  reviewers_of data reviewers →
  let cloud := "/repositories/" +:+ ws +:+ "/" +:+ repo +:+ "/pullrequests" in
  let repository :=
    object [("slug", VStr repo); ("project", object [("key", VStr ws)])] in
  ∃ c,
    transformRequest (Config (Some cloud) (Some method) params data None)
    = Ok c
    ∧ cfg_url c
      = Some ("/rest/api/1.0/projects/" +:+ ws +:+ "/repos/" +:+ repo
                +:+ "/pull-requests")
    ∧ cfg_originalPath c = Some cloud
    ∧ get (cfg_data c) "fromRef"
      = Ok (object [("id", VStr ("refs/heads/" +:+ source));
                    ("repository", repository)])
    ∧ get (cfg_data c) "toRef"
      = Ok (object [("id", VStr ("refs/heads/" +:+ target));
                    ("repository", repository)]).
Proof.
  intros Hws Hrepo Hne Hmethod Hsrc Htgt Hrev cloud repository.
  destruct (branch_given_source_truthy _ _ Hsrc) as [Htruthy Hd].
  pose proof (transformUrl_collection ws repo Hws Hrepo) as Hurl.
  change (join ["repositories"; ws; repo; "pullrequests"]) with cloud in Hurl.
  set (server := join ["rest"; "api"; "1.0"; "projects"; ws; "repos"; repo;
                       "pull-requests"]) in *.
  names_facts Hws. names_facts Hrepo.
  assert (Hpull : includes server "/pull-requests" = true)
    by by apply includes_pull_requests_collection.
  destruct (match_group1_server_path ws repo ["pull-requests"])
    as [Hkey Hslug]; [done.. |].
  fold server in Hkey, Hslug.
  unfold transformRequest. cbn [cfg_url cfg_data cfg_method cfg_params].
  assert (String.eqb cloud "" = false) as -> by done.
  rewrite Hurl, Htruthy.
  rewrite bool_decide_eq_true_2
    by (destruct Hmethod as [->| ->]; [by left | by right]).
  cbn [andb].
  rewrite (transformRequestBody_create server data source target reviewers)
    by done.
  cbn [mbind result_bind]. eexists. split; [reflexivity |].
  cbn [cfg_url cfg_data cfg_originalPath]. rewrite Hkey, Hslug.
  split_and!; reflexivity.
Qed.

Lemma transformRequest_create_pull_request_witness :
  ∃ c,
    transformRequest
      (Config (Some ("/repositories/" +:+ "team" +:+ "/" +:+ "site"
                       +:+ "/pullrequests"))
         (Some "post") VUndef
         (object [("title", VStr "Fix"); ("sourceBranch", VStr "feature")])
         None)
    = Ok c
    ∧ cfg_url c
      = Some ("/rest/api/1.0/projects/" +:+ "team" +:+ "/repos/" +:+ "site"
                +:+ "/pull-requests").
Proof.
  destruct (transformRequest_create_pull_request "team" "site" "post" VUndef
              (object [("title", VStr "Fix");
                       ("sourceBranch", VStr "feature")])
              "feature" "master" [])
    as (c & Hc & Hurl & _).
  - reflexivity.
  - reflexivity.
  - discriminate.
  - left. reflexivity.
  - split; [discriminate |]. left. reflexivity.
  - right. split; [split; reflexivity | reflexivity].
  - right. split; reflexivity.
  - exists c. split; [exact Hc | exact Hurl].
Defined.

Lemma or_val_falsy (a b : value) :
  truthy (or_val a b) = false → truthy a = false ∧ truthy b = false.
Proof. unfold or_val. destruct (truthy a) eqn:E; [congruence | done]. Qed.

(** What [transformRequestBody] returns, it returns again when it is given
    its own result. *)
Lemma transformRequestBody_again (url : string) (data body : value) :
  transformRequestBody url data = Ok body →
  transformRequestBody url body = Ok body.
Proof.
  intros H. pose proof H as H'. unfold transformRequestBody in H.
  destruct (includes url "/pull-requests") eqn:Hurl;
    [| by injection H as <-].
  destruct (nullish data) eqn:Hd.
  { rewrite (get_nullish data "sourceBranch") in H by done. discriminate H. }
  repeat (rewrite (get_ok data) in H by done; cbn [mbind result_bind] in H).
  rewrite or_else_Ok in H. cbn [mbind result_bind] in H.
  repeat (rewrite (get_ok data) in H by done; cbn [mbind result_bind] in H).
  rewrite or_else_Ok in H. cbn [mbind result_bind] in H.
  match type of H with
  | (if truthy ?sb then _ else _) = _ => destruct (truthy sb) eqn:Hsb
  end.
  - repeat (rewrite (get_ok data) in H by done; cbn [mbind result_bind] in H).
    repeat match type of H with
           | mbind _ ?x = Ok _ =>
               destruct x; cbn [mbind result_bind] in H; [|discriminate H]
           end.
    cbn [mbind result_bind] in H. injection H as <-.
    apply transformRequestBody_no_source; [done |]. split; reflexivity.
  - injection H as <-. apply or_val_falsy in Hsb as [Hflat Hnested].
    by apply transformRequestBody_no_source.
Qed.

(** X10. The request hook is idempotent on a request whose rewritten path
    is a fixed point of [transformUrl]: run again on its own result, as on
    a request that is sent a second time, it changes neither the path, nor
    the parameters, nor the body, and only records the rewritten path as
    the original one. *)
Theorem transformRequest_again (c c1 : config) (url : string) :
  transformRequest c = Ok c1 →
  cfg_url c1 = Some url → url ≠ "" →
  transformUrl url = url →
  transformRequest c1
  = Ok (Config (Some url) (cfg_method c1) (cfg_params c1) (cfg_data c1)
          (Some url)).
Proof.
  intros H Hurl Hne Hfix. unfold transformRequest in H.
  destruct (cfg_url c) as [u|] eqn:Hu; [|injection H as <-; congruence].
  destruct (String.eqb_spec u "") as [->|_];
    [injection H as <-; congruence |].
  assert (Hdata :
    ∃ d, c1 = Config (Some (transformUrl u)) (cfg_method c)
                (if truthy (cfg_params c)
                 then VObj (transformParams (cfg_params c))
                 else cfg_params c)
                d (Some u)
         ∧ (truthy d
            && bool_decide (cfg_method c = Some "post"
                            ∨ cfg_method c = Some "put") = true →
            transformRequestBody (transformUrl u) d = Ok d)).
  { destruct (truthy (cfg_data c) && _) eqn:Hcond.
    - destruct (transformRequestBody _ _) as [d|] eqn:Hd; [|done].
      injection H as <-. exists d. split; [done |]. intros _.
      by apply transformRequestBody_again in Hd.
    - injection H as <-. exists (cfg_data c). split; [done |].
      intros Hc. congruence. }
  destruct Hdata as (d & -> & Hd). cbn [cfg_url] in Hurl.
  injection Hurl as Hurl. rewrite Hurl in *.
  unfold transformRequest.
  cbn [cfg_url cfg_method cfg_params cfg_data].
  rewrite (proj2 (String.eqb_neq url "")) by done. rewrite Hfix.
  assert (∀ p, (if truthy (if truthy p then VObj (transformParams p) else p)
                then VObj (transformParams
                             (if truthy p then VObj (transformParams p)
                              else p))
                else if truthy p then VObj (transformParams p) else p)
               = (if truthy p then VObj (transformParams p) else p)) as ->.
  { intros p. destruct (truthy p) eqn:Hp; [|by rewrite Hp].
    cbn [truthy].
    by rewrite transformParams_fixed
      by (apply transformParams_pagelen || apply transformParams_state). }
  destruct (truthy d && _) eqn:Hcond; [|done].
  by rewrite Hd.
Qed.

Lemma transformRequest_again_witness :
  let sent :=
    Config (Some "/rest/api/1.0/projects/P/repos/r") (Some "get")
      VUndef VUndef (Some "/repositories/P/r") in
  transformRequest sent
  = Ok (Config (Some "/rest/api/1.0/projects/P/repos/r") (Some "get")
          VUndef VUndef (Some "/rest/api/1.0/projects/P/repos/r")).
Proof.
  intros sent.
  apply (transformRequest_again
           (Config (Some "/repositories/P/r") (Some "get") VUndef VUndef
              None)
           sent "/rest/api/1.0/projects/P/repos/r").
  - reflexivity.
  - reflexivity.
  - discriminate.
  - reflexivity.
Defined.

(** ** The response hook *)

(** Inversion of a bind that returned. *)
Ltac bind_inv H :=
  repeat match type of H with
         | mbind _ ?x = Ok _ =>
             let E := fresh "E" in
             destruct x eqn:E; cbn [mbind result_bind] in H;
             [|discriminate H]
         end.

Lemma call_map_inv (v : value) (f : value → result value) (r : value) :
  call_map v f = Ok r → ∃ l rs, v = VArr l ∧ mapM f l = Ok rs ∧ r = VArr rs.
Proof.
  destruct v as [| | | | |l| |]; try discriminate. cbn [call_map].
  destruct (mapM f l) as [rs|] eqn:E; [|discriminate].
  intros [= <-]. by exists l, rs.
Qed.

Lemma set_inv (v x r : value) (k : string) :
  set v k x = Ok r → ∃ m, v = VObj m ∧ r = VObj (<[k := x]> m).
Proof.
  destruct v as [| | | | | |m|]; try discriminate.
  intros [= <-]. by exists m.
Qed.

Lemma map_values_inv (f : value → result value) (data r : value) :
  map_values f data = Ok r →
  ∃ m l, data = VObj m ∧ r = VObj (<["values" := VArr l]> m).
Proof.
  unfold map_values. intros H. bind_inv H.
  apply call_map_inv in E0 as (l & rs & _ & _ & ->).
  apply set_inv in H as (m & -> & ->). by exists m, rs.
Qed.

Lemma activities_block_inv (data r : value) :
  activities_block data = Ok r →
  ∃ m l, data = VObj m ∧ r = VObj (<["values" := VArr l]> m).
Proof.
  unfold activities_block. intros H. bind_inv H.
  apply call_map_inv in E2 as (l & rs & _ & _ & ->).
  apply set_inv in H as (m & -> & ->).
  destruct (bool_decide _); eauto.
Qed.

Lemma when_inv (c : bool) (step : value → result value) (data r : value) :
  (∀ d r, step d = Ok r →
          ∃ m l, d = VObj m ∧ r = VObj (<["values" := VArr l]> m)) →
  when c step data = Ok r →
  r = data
  ∨ ∃ m l, data = VObj m ∧ r = VObj (<["values" := VArr l]> m).
Proof.
  intros Hstep. destruct c; cbn [when].
  - intros H. right. by apply Hstep.
  - intros [= <-]. by left.
Qed.

Lemma envelope_trans (a b c : value) :
  (b = a ∨ ∃ m l, a = VObj m ∧ b = VObj (<["values" := VArr l]> m)) →
  (c = b ∨ ∃ m l, b = VObj m ∧ c = VObj (<["values" := VArr l]> m)) →
  c = a ∨ ∃ m l, a = VObj m ∧ c = VObj (<["values" := VArr l]> m).
Proof.
  intros [->|(m & l & -> & ->)] [->|(m' & l' & Hb & ->)]; eauto.
  injection Hb as <-. right. exists m, l'.
  by rewrite insert_insert_eq.
Qed.

(** X11. Whatever the path, [transformPaginatedResponse] returns the page
    it was given or that page with a new list under [values]: every other
    field of the envelope ([size], [isLastPage], [start],
    [nextPageStart], ...) is read back as it was. *)
Theorem transformPaginatedResponse_envelope
    (baseUrl url : string) (data r : value) :
  transformPaginatedResponse baseUrl url data = Ok r →
  (r = data
   ∨ ∃ m entries,
       data = VObj m ∧ r = VObj (<["values" := VArr entries]> m))
  ∧ (∀ k, k ≠ "values" → get r k = get data k).
Proof.
  intros H.
  assert (Henv : r = data
                 ∨ ∃ m entries,
                     data = VObj m
                     ∧ r = VObj (<["values" := VArr entries]> m)).
  { unfold transformPaginatedResponse in H. bind_inv H.
    apply when_inv in E, E0, E1, E2, H;
      try apply map_values_inv; try apply activities_block_inv.
    eauto using envelope_trans. }
  split; [done |].
  intros k Hk. destruct Henv as [->|(m & l & -> & ->)]; [done |].
  cbn [get]. by rewrite lookup_insert_ne.
Qed.

Lemma transformPaginatedResponse_envelope_witness :
  let data :=
    object [("values", VArr [object [("type", VStr "ADD")]]);
            ("isLastPage", VBool true)] in
  let r :=
    object [("values",
             VArr [object [("status", VStr "ADD"); ("new", VNull);
                           ("old", VNull); ("lines_added", VNum 0);
                           ("lines_removed", VNum 0)]]);
            ("isLastPage", VBool true)] in
  get r "isLastPage" = get data "isLastPage".
Proof.
  intros data r.
  destruct (transformPaginatedResponse_envelope "https://git.example.com"
              "/rest/api/1.0/projects/P/repos/r/pull-requests/5/changes"
              data r) as [_ H].
  - vm_compute. reflexivity.
  - apply H. discriminate.
Defined.

(** X12. A payload that is a bare JSON list counts as a page, because a
    list has a member [values]; on a path on which some block of
    [transformPaginatedResponse] runs the response hook then fails with a
    [TypeError], on any other path the list is returned as it is.  Some
    block runs on every path that contains [/projects] and not
    [/pull-requests]. *)
Theorem transformResponse_list_payload
    (baseUrl url : string) (l : list value) :
  transformResponse baseUrl (Response (Some url) (VArr l))
  = (if normalizes url then Throw TypeError
     else Ok (Response (Some url) (VArr l)))
  ∧ (includes url "/projects" = true →
     includes url "/pull-requests" = false →
     normalizes url = true).
Proof.
  split.
  - unfold transformResponse, normalizes. cbn [resp_url resp_data truthy].
    destruct (String.eqb_spec url "") as [->|_]; [done |].
    cbn [get String.eqb Ascii.eqb Bool.eqb fmap result_fmap truthy
         mbind result_bind].
    unfold transformPaginatedResponse.
    destruct (includes url "/projects"), (includes url "/repos"),
      (includes url "/pull-requests"), (includes url "/pull-requests/"),
      (includes url "/changes"), (includes url "/activities");
      reflexivity.
  - unfold normalizes. intros -> ->.
    by destruct (includes url "/repos").
Qed.

Lemma transformResponse_list_payload_witness :
  transformResponse "https://git.example.com"
    (Response (Some "/rest/api/1.0/projects/P/repos/r/branches") (VArr []))
  = Throw TypeError.
Proof.
  destruct (transformResponse_list_payload "https://git.example.com"
              "/rest/api/1.0/projects/P/repos/r/branches" [])
    as [H Hruns].
  rewrite H, Hruns; reflexivity.
Defined.

(** ** Workspaces *)



Lemma get_opt_not_nullish (v : value) (k : string) :
  nullish (get_opt v k) = false → nullish v = false.
Proof. by destruct v. Qed.








(** ** Repositories *)




Lemma mapM_Throw {A B} (f : A → result B) (l : list A) :
  Exists (λ x, f x = Throw TypeError) l → mapM f l = Throw TypeError.
Proof.
  induction 1 as [x l Hx|x l _ IH];
    change (mapM f (x :: l)) with (y ← f x; k ← mapM f l; Ok (y :: k)).
  - by rewrite Hx.
  - rewrite IH. by destruct (f x) as [y|[]].
Qed.

(** A repository without a project cannot be normalized. *)
Lemma repository_without_project (baseUrl : string) (repo : value) :
  nullish (get_opt repo "project") = true →
  repository baseUrl repo = Throw TypeError.
Proof.
  intros Hp. unfold repository, get2.
  destruct (nullish repo) eqn:Hr.
  { by rewrite (get_nullish repo "id"). }
  repeat (rewrite !(get_ok repo) by done; cbn [mbind result_bind]).
  rewrite !(get_nullish (get_opt repo "project")) by done.
  cbn [mbind result_bind].
  by destruct (braced _) as [uuid|[]].
Qed.

(** X16. A repository that has no [project] cannot be normalized: the
    single-repository rule fails with a [TypeError], and one such
    repository in a page makes the whole page fail, whatever the other
    entries are. *)
Theorem repository_without_project_throws
    (baseUrl url : string) :
  includes url "/pull-requests" = false →
  (∀ data,
     includes url "/repos/" = true →
     truthy (get_opt data "slug") = true →
     truthy (get_opt data "key") = false →
     nullish (get_opt data "project") = true →
     transformSingleResponse baseUrl url data = Throw TypeError)
  ∧ (∀ m repos,
       includes url "/repos" = true →
       m !! "values" = Some (VArr repos) →
       Exists (λ repo, nullish (get_opt repo "project") = true) repos →
       transformPaginatedResponse baseUrl url (VObj m) = Throw TypeError).
Proof.
  intros Hpr. split.
  - intros data Hrepos Hslug Hkey Hp.
    assert (Hd : nullish data = false).
    { apply (get_opt_not_nullish data "slug"), truthy_not_nullish, Hslug. }
    unfold transformSingleResponse.
    rewrite !(get_ok data) by done. rewrite Hrepos, Hpr.
    cbn [fmap result_fmap mbind result_bind]. rewrite Hslug, Hkey.
    destruct (test re_project_end url);
      cbn [mbind result_bind andb negb];
      by apply repository_without_project.
  - intros m repos Hrepos Hm Hex. unfold transformPaginatedResponse.
    rewrite Hrepos, Hpr. rewrite andb_false_r.
    cbn [andb negb when mbind result_bind].
    unfold map_values. cbn [get]. rewrite Hm.
    cbn [mbind result_bind call_map].
    rewrite mapM_Throw; [done |].
    eapply Exists_impl; [exact Hex |]. intros repo.
    apply repository_without_project.
Qed.

Lemma repository_without_project_throws_witness :
  transformSingleResponse "https://git.example.com"
    "/rest/api/1.0/projects/P/repos/r"
    (object [("id", VNum 1); ("slug", VStr "r")])
  = Throw TypeError.
Proof.
  destruct (repository_without_project_throws "https://git.example.com"
              "/rest/api/1.0/projects/P/repos/r") as [H _].
  - reflexivity.
  - apply H; reflexivity.
Defined.

(** ** Activities *)

Lemma filter_commented_nil (acts : list value) :
  List.filter commented acts = [] ↔ Forall (λ a, commented a = false) acts.
Proof.
  induction acts as [|a acts IH]; cbn [List.filter].
  - split; [constructor | done].
  - destruct (commented a) eqn:E.
    + split; [discriminate | by inversion 1; congruence].
    + rewrite IH. split; [by constructor | by inversion 1].
Qed.

(** X17. On a path that contains [/pull-requests/] and [/activities] (and
    not [/changes]), a page of activities with at least one [COMMENTED]
    activity becomes the page of its comments, in the same order, and the
    other activities are dropped; a page without any becomes the log of
    all its activities, one entry for each, none of them with a
    [comment]. *)
Theorem transformPaginatedResponse_comments_or_log
    (baseUrl url : string) (m : gmap string value) (acts : list value) :
  includes url "/pull-requests/" = true →
  includes url "/activities" = true →
  includes url "/changes" = false →
  includes url "/projects" && negb (includes url "/repos") = false →
  m !! "values" = Some (VArr acts) →
  Forall activity_ok acts →
  ∃ entries,
    transformPaginatedResponse baseUrl url (VObj m)
    = Ok (VObj (<["values" := VArr entries]> m))
    ∧ (Exists (λ a, commented a = true) acts →
       length entries = length (List.filter commented acts)
       ∧ Forall (λ r, get r "type" = Ok (VStr "pullrequest_comment"))
           entries)
    ∧ (Forall (λ a, commented a = false) acts →
       length entries = length acts
       ∧ Forall (λ r, has_field r "update" = true
                      ∧ has_field r "comment" = false) entries).
Proof.
  intros Hpr Hact Hch Hproj Hm Hall.
  destruct (transformPaginatedResponse_activities baseUrl url m acts)
    as (entries & Hentries & Hcomments & Hlog); [done.. |].
  exists entries. split; [done |]. split.
  - intros Hex.
    assert (Hne : List.filter commented acts ≠ []).
    { intros Hnil. apply filter_commented_nil in Hnil.
      apply Exists_exists in Hex as (a & Hin & Ha).
      rewrite Forall_forall in Hnil. specialize (Hnil a Hin). congruence. }
    specialize (Hcomments Hne). split.
    + symmetry. by eapply Forall2_length.
    + clear -Hcomments.
      induction Hcomments as [|a r ?? [_ Hr] _ IH]; by constructor.
  - intros Hnone. apply filter_commented_nil in Hnone.
    specialize (Hlog Hnone). split.
    + symmetry. by eapply Forall2_length.
    + clear -Hlog.
      induction Hlog as [|a r ?? (_ & Hu & Hc & _) _ IH]; by constructor.
Qed.

Lemma transformPaginatedResponse_comments_or_log_witness :
  ∃ entries,
    transformPaginatedResponse "https://git.example.com"
      "/rest/api/1.0/projects/P/repos/r/pull-requests/5/activities"
      (VObj {[ "values" :=
                 VArr [sample_activity "APPROVED";
                       sample_activity "COMMENTED"] ]})
    = Ok (VObj (<["values" := VArr entries]>
                  {[ "values" :=
                       VArr [sample_activity "APPROVED";
                             sample_activity "COMMENTED"] ]}))
    ∧ length entries = 1.
Proof.
  destruct (transformPaginatedResponse_comments_or_log
              "https://git.example.com"
              "/rest/api/1.0/projects/P/repos/r/pull-requests/5/activities"
              {[ "values" :=
                   VArr [sample_activity "APPROVED";
                         sample_activity "COMMENTED"] ]}
              [sample_activity "APPROVED"; sample_activity "COMMENTED"])
    as (entries & Hentries & Hcomments & _).
  - reflexivity.
  - reflexivity.
  - reflexivity.
  - reflexivity.
  - reflexivity.
  - repeat constructor.
  - exists entries. split; [exact Hentries |].
    apply Hcomments. right. left. reflexivity.
Defined.

(** ** Empty pages *)

Lemma map_values_empty (f : value → result value) (m : gmap string value) :
  m !! "values" = Some (VArr []) → map_values f (VObj m) = Ok (VObj m).
Proof.
  intros Hm. rewrite (map_values_object f m [] []) by done.
  by rewrite insert_id.
Qed.

(** X18. A page without entries comes back from the response hook as it
    is, on every path. *)
Theorem transformResponse_empty_page
    (baseUrl url : string) (m : gmap string value) :
  m !! "values" = Some (VArr []) →
  transformResponse baseUrl (Response (Some url) (VObj m))
  = Ok (Response (Some url) (VObj m)).
Proof.
  intros Hm. unfold transformResponse. cbn [resp_url resp_data truthy get].
  destruct (String.eqb url ""); [done |]. rewrite Hm.
  cbn [fmap result_fmap mbind result_bind truthy].
  assert (transformPaginatedResponse baseUrl url (VObj m) = Ok (VObj m))
    as ->; [|done].
  unfold transformPaginatedResponse.
  assert (Hact : activities_block (VObj m) = Ok (VObj m)).
  { unfold activities_block. cbn [get]. rewrite Hm.
    cbn [mbind result_bind or_val truthy call_filter call_map mapM
         mret result_ret fmap result_fmap set length].
    rewrite bool_decide_eq_false_2 by (by inversion 1).
    by rewrite insert_id. }
  repeat match goal with
         | |- context [when ?c _ _] => destruct c; cbn [when]
         end.
  all: repeat (cbn [mbind result_bind];
               rewrite ?map_values_empty, ?Hact by done).
  all: reflexivity.
Qed.

Lemma transformResponse_empty_page_witness :
  transformResponse "https://git.example.com"
    (Response (Some "/rest/api/1.0/projects/P/repos")
       (VObj {[ "values" := VArr [] ]}))
  = Ok (Response (Some "/rest/api/1.0/projects/P/repos")
          (VObj {[ "values" := VArr [] ]})).
Proof.
  apply (transformResponse_empty_page "https://git.example.com"
           "/rest/api/1.0/projects/P/repos" {[ "values" := VArr [] ]}).
  reflexivity.
Defined.

(** ** Pull requests *)










(** ** The error hook *)

(** X21. When the payload of a failure lists errors and the first of them
    is an entry, the failure is raised again with the payload replaced by
    [{ type: "error", error: { message, detail } }]: the message falls
    back on the exception name and the detail on the message, nothing else
    of the old payload is kept (the other errors are gone), and the other
    fields of the failure and of its response are as they were. *)
Theorem transformError_first_error
    (e r d : gmap string value) (first : value) (rest : list value) :
  e !! "response" = Some (VObj r) →
  r !! "data" = Some (VObj d) →
  d !! "errors" = Some (VArr (first :: rest)) →
  nullish first = false →
  ∃ reason,
    transformError (VObj e) = Ok (Rejected reason)
    ∧ get2 reason "response" "data"
      = Ok (object
              [("type", VStr "error");
               ("error",
                object
                  [("message",
                    or_val (get_opt first "message")
                      (get_opt first "exceptionName"));
                   ("detail",
                    or_val (get_opt first "context")
                      (get_opt first "message"))])])
    ∧ get3 reason "response" "data" "errors" = Ok VUndef
    ∧ (∀ k, k ≠ "response" → get reason k = get (VObj e) k)
    ∧ (∀ k, k ≠ "data" → get2 reason "response" k = get (VObj r) k).
Proof.
  intros He Hr Hd Hfirst.
  rewrite (transformError_first_entry e r d first rest) by done.
  eexists. split; [reflexivity |].
  unfold get3, get2. cbn [get mbind result_bind].
  rewrite !lookup_insert_eq. cbn [get mbind result_bind].
  rewrite !lookup_insert_eq.
  split_and!; [reflexivity | reflexivity | |].
  - intros k Hk. by rewrite lookup_insert_ne.
  - intros k Hk. by rewrite lookup_insert_ne.
Qed.

Lemma transformError_first_error_witness :
  let failure :=
    {[ "response" :=
         VObj {[ "status" := VNum 404;
                 "data" :=
                   VObj {[ "errors" :=
                             VArr [object
                                     [("exceptionName",
                                       VStr "NoSuchProjectException")]] ]}
              ]} ]} in
  ∃ reason,
    transformError (VObj failure) = Ok (Rejected reason)
    ∧ get2 reason "response" "status" = Ok (VNum 404).
Proof.
  intros failure.
  destruct (transformError_first_error failure
              {[ "status" := VNum 404;
                 "data" :=
                   VObj {[ "errors" :=
                             VArr [object
                                     [("exceptionName",
                                       VStr "NoSuchProjectException")]] ]}
              ]}
              {[ "errors" :=
                   VArr [object
                           [("exceptionName",
                             VStr "NoSuchProjectException")]] ]}
              (object [("exceptionName", VStr "NoSuchProjectException")])
              [])
    as (reason & Hreason & _ & _ & _ & Hresponse).
  - reflexivity.
  - reflexivity.
  - reflexivity.
  - reflexivity.
  - exists reason. split; [exact Hreason |].
    rewrite (Hresponse "status") by discriminate. reflexivity.
Defined.

(** X22. The error hook never turns a failure into a success: whenever it
    returns, the promise it returns is rejected.  A failure without a
    response, without a payload or without a list of errors in the payload
    is raised again as it is. *)
Theorem transformError_raises_again :
  (∀ error p, transformError error = Ok p → ∃ reason, p = Rejected reason)
  ∧ (∀ e,
       truthy
         (get_opt (get_opt (get_opt (VObj e) "response") "data") "errors")
       = false →
       transformError (VObj e) = Ok (Rejected (VObj e))).
Proof. split; [apply transformError_rejects | apply transformError_other]. Qed.

Lemma transformError_raises_again_witness :
  transformError (object [("message", VStr "timeout of 5000ms exceeded")])
  = Ok (Rejected (object [("message", VStr "timeout of 5000ms exceeded")])).
Proof.
  destruct transformError_raises_again as [_ H].
  apply (H (list_to_map [("message", VStr "timeout of 5000ms exceeded")])).
  reflexivity.
Defined.

(** ** Installation *)

Lemma includes_app (b p a : string) : includes (b +:+ p +:+ a) p = true.
Proof.
  unfold includes. induction b as [|c b IH].
  - change ("" +:+ p +:+ a) with (p +:+ a).
    assert (H : strip_prefix p (p +:+ a) = Some a)
      by apply strip_prefix_app.
    destruct (p +:+ a); cbn [search]; by rewrite H.
  - change (String c b +:+ p +:+ a) with (String c (b +:+ p +:+ a)).
    cbn [search].
    destruct (strip_prefix p (String c (b +:+ p +:+ a))); [done |].
    by destruct (search p (b +:+ p +:+ a)) as [[??]|].
Qed.

(** X23. The adapter takes a base URL for Bitbucket Cloud as soon as
    [bitbucket.org] occurs anywhere in it, and then installs nothing: the
    client is left as it was.  For any other base URL it registers one
    request hook and one pair of response hooks, after those the client
    already has, once for each call. *)
Theorem install_hooks (axios : interceptors) :
  (∀ before after,
     install (before +:+ "bitbucket.org" +:+ after) axios = axios)
  ∧ (∀ baseUrl,
       includes baseUrl "bitbucket.org" = false →
       let installed := install baseUrl axios in
       on_request installed = on_request axios ++ [transformRequest]
       ∧ on_response installed
         = on_response axios ++ [(transformResponse baseUrl, transformError)]
       ∧ length (on_request (install baseUrl installed))
         = 2 + length (on_request axios)).
Proof.
  split.
  - intros before after. unfold install, isServer.
    by rewrite includes_app.
  - intros baseUrl Hserver. unfold install, isServer. rewrite Hserver.
    cbn [negb on_request on_response]. split_and!; [done | done |].
    rewrite !length_app. cbn [length]. by rewrite <-!Nat.add_assoc, Nat.add_comm.
Qed.

Lemma install_hooks_witness :
  on_request (install "https://git.example.com" (Interceptors [] []))
  = [transformRequest].
Proof.
  destruct (install_hooks (Interceptors [] [])) as [_ H].
  apply (H "https://git.example.com"). reflexivity.
Defined.

(** ** Comments *)



